(** * Miro Video Converter: [mvc/converter.py]

    A shallow embedding of the conversion profiles ([ConverterInfo]), the
    ffmpeg diagnostic-line classifier ([FFmpegConverterInfoBase]), the
    finalize step and the profile registry ([ConverterManager]), followed
    by the properties established about them.

    Conventions of the embedding:
    - a Python 2 [str] is a [string] (a sequence of 8-bit characters);
    - [None] is the [None] of an [option];
    - a Python [float] is an IEEE 754 binary64 number ([float]) with the
      interpreter's round-to-nearest operations, a Python 2 [int] or [long]
      an unbounded integer ([Z]); [/] on two integers is the floor division
      of Python 2;
    - a [dict] is a [gmap], a set of paths a [gset];
    - a call that may raise returns an [outcome]. *)

From Stdlib Require Import ZArith Ascii String DecimalString PrimFloat.
From Stdlib Require SpecFloat FloatOps.
From stdpp Require Import base gmap strings list.

Local Open Scope string_scope.
Local Open Scope Z_scope.

(** Decimal literals of [float] stand for the nearest binary64 value, as
    they do in the source. *)
#[local] Set Warnings "-inexact-float".

(** ** Python strings *)

Module PyStr.

Definition code (c : ascii) : N := N_of_ascii c.

Definition in_range (lo hi c : ascii) : bool :=
  ((code lo <=? code c) && (code c <=? code hi))%N.

Definition is_digit (c : ascii) : bool := in_range "0" "9" c.
Definition is_upper (c : ascii) : bool := in_range "A" "Z" c.
Definition is_lower (c : ascii) : bool := in_range "a" "z" c.

(** The class [[a-zA-Z0-9]]. *)
Definition is_alnum (c : ascii) : bool := is_lower c || is_upper c || is_digit c.

(** The class [\w] of an 8-bit pattern without flags: [[a-zA-Z0-9_]]. *)
Definition is_word (c : ascii) : bool := is_alnum c || (code c =? code "_")%N.

(** The class [\W]. *)
Definition is_nonword (c : ascii) : bool := negb (is_word c).

(** The class [.] without DOTALL: anything but a line feed. *)
Definition is_dot (c : ascii) : bool := negb (code c =? 10)%N.

(** [string.whitespace]: space, tab, line feed, vertical tab, form feed,
    carriage return. *)
Definition is_space (c : ascii) : bool :=
  ((code c =? 32) || ((9 <=? code c) && (code c <=? 13)))%N.

Definition lower_char (c : ascii) : ascii :=
  if is_upper c then ascii_of_N (code c + 32) else c.

(** [s.lower()] *)
Fixpoint lower (s : string) : string :=
  match s with
  | EmptyString => EmptyString
  | String c s' => String (lower_char c) (lower s')
  end.

Fixpoint filter (p : ascii -> bool) (s : string) : string :=
  match s with
  | EmptyString => EmptyString
  | String c s' => if p c then String c (filter p s') else filter p s'
  end.

Fixpoint forallb (p : ascii -> bool) (s : string) : bool :=
  match s with
  | EmptyString => true
  | String c s' => p c && forallb p s'
  end.

(** [s[len(prefix):]] when [s.startswith(prefix)]. *)
Fixpoint strip_prefix (prefix s : string) : option string :=
  match prefix with
  | EmptyString => Some s
  | String a prefix' =>
      match s with
      | EmptyString => None
      | String b s' => if Ascii.eqb a b then strip_prefix prefix' s' else None
      end
  end.

(** [s.startswith(prefix)] *)
Definition startswith (prefix s : string) : bool :=
  match strip_prefix prefix s with Some _ => true | None => false end.

(** [c in s] for a one-character [c]. *)
Fixpoint contains (c : ascii) (s : string) : bool :=
  match s with
  | EmptyString => false
  | String b s' => Ascii.eqb c b || contains c s'
  end.

(** [s.split(sep)] for a one-character separator. *)
Fixpoint split (sep : ascii) (s : string) : list string :=
  match s with
  | EmptyString => [EmptyString]
  | String c s' =>
      if Ascii.eqb c sep then EmptyString :: split sep s'
      else match split sep s' with
           | w :: ws => String c w :: ws
           | [] => [String c EmptyString]
           end
  end.

(** [s.rfind(c)] for a one-character [c]; [-1] when absent. *)
Fixpoint rfind_from (c : ascii) (s : string) (i : Z) (last : Z) : Z :=
  match s with
  | EmptyString => last
  | String b s' => rfind_from c s' (i + 1) (if Ascii.eqb b c then i else last)
  end.

Definition rfind (c : ascii) (s : string) : Z := rfind_from c s 0 (-1).

(** The slices [s[i:]] and [s[:i]] for [0 <= i]. *)
Definition slice_from (i : Z) (s : string) : string :=
  substring (Z.to_nat i) (String.length s - Z.to_nat i) s.

Definition slice_to (i : Z) (s : string) : string :=
  substring 0 (Z.to_nat i) s.

(** Truth value of a string: non-empty. *)
Definition truthy (s : string) : bool :=
  match s with EmptyString => false | _ => true end.

End PyStr.

(** ** Regular expressions, as [re.match] runs them

    [re.match] anchors a pattern at the start of the subject only, and
    explores alternatives by backtracking, greedy choices first.  The three
    patterns of the source use literals, one-character classes, a greedy
    star over a one-character class, greedy optional groups and capturing
    groups; the matcher below covers exactly these. *)

Module Re.

Inductive regex : Type :=
| Lit (s : string)
| Class (p : ascii -> bool)
| Star (p : ascii -> bool)
| Cat (r1 r2 : regex)
| Opt (r : regex)
| Group (n : nat) (r : regex).

(** Slot [0] is the whole match, slot [n] is group [n]; [None] marks a
    group that took no part in the match. *)
Abbreviation captures := (list (option string)).

(** Greedy [p*]: the longest run first, giving back one character at a
    time while the continuation fails. *)
Fixpoint star_greedy {A : Type} (p : ascii -> bool) (s : string)
    (k : string -> option A) : option A :=
  match s with
  | String c s' =>
      if p c then
        match star_greedy p s' k with
        | Some r => Some r
        | None => k s
        end
      else k s
  | EmptyString => k s
  end.

(** The text consumed between the subject [s] and its suffix [s']. *)
Definition consumed (s s' : string) : string :=
  substring 0 (String.length s - String.length s') s.

Fixpoint rmatch {A : Type} (r : regex) (s : string) (caps : captures)
    (k : string -> captures -> option A) : option A :=
  match r with
  | Lit l =>
      match PyStr.strip_prefix l s with
      | Some s' => k s' caps
      | None => None
      end
  | Class p =>
      match s with
      | String c s' => if p c then k s' caps else None
      | EmptyString => None
      end
  | Star p => star_greedy p s (fun s' => k s' caps)
  | Cat r1 r2 => rmatch r1 s caps (fun s' caps' => rmatch r2 s' caps' k)
  | Opt r1 =>
      match rmatch r1 s caps k with
      | Some x => Some x
      | None => k s caps
      end
  | Group n r1 =>
      rmatch r1 s caps (fun s' caps' => k s' (<[n := Some (consumed s s')]> caps'))
  end.

(** A compiled pattern: the expression and its number of groups. *)
Record pattern : Type := Pattern { pat_re : regex; pat_groups : nat }.

(** [pattern.match(line)]: the captures, or [None]. *)
Definition re_match (p : pattern) (line : string) : option captures :=
  rmatch (Group 0 (pat_re p)) line (replicate (S (pat_groups p)) None)
         (fun _ caps => Some caps).

(** [match.group(n)] *)
Definition group (m : captures) (n : nat) : option string :=
  match m !! n with Some g => g | None => None end.

(** [match.groups()] *)
Definition groups (m : captures) : captures := drop 1 m.

(** Sequencing of a list of sub-expressions. *)
Fixpoint cat (rs : list regex) : regex :=
  match rs with
  | [] => Lit ""
  | [r] => r
  | r :: rs' => Cat r (cat rs')
  end.

End Re.

(** ** Exceptions and results *)

Inductive exn : Type :=
| FastStartException (msg : string)
| EnvironmentError (msg : string)
| ValueError (msg : string)
| TypeError (msg : string)
| OverflowError (msg : string)
| ZeroDivisionError (msg : string)
| Exception (msg : string).

Inductive outcome (A : Type) : Type :=
| Returned (a : A)
| Raised (e : exn).

Arguments Returned {A} a.
Arguments Raised {A} e.

Definition bind {A B : Type} (x : outcome A) (f : A -> outcome B) : outcome B :=
  match x with
  | Returned a => f a
  | Raised e => Raised e
  end.

Notation "x <- e1 ;; e2" := (bind e1 (fun x => e2))
  (at level 100, e1 at next level, right associativity).

(** [[f(x) for x in xs]]: the first failure ends the comprehension. *)
Fixpoint for_each {A B : Type} (f : A -> outcome B) (xs : list A) : outcome (list B) :=
  match xs with
  | [] => Returned []
  | x :: xs' => y <- f x ;; ys <- for_each f xs' ;; Returned (y :: ys)
  end.

(** ** Numbers *)

(** A Python 2 number: an [int] or [long], which never overflows, or a
    [float], an IEEE 754 binary64 value. *)
Inductive pynum : Type :=
| PyInt (n : Z)
| PyFloat (f : float).

(** The binary64 value nearest to an integer, ties to even; an integer
    beyond the largest finite value gives an infinity. *)
Definition Z2F (n : Z) : float :=
  FloatOps.SF2Prim (SpecFloat.binary_normalize FloatOps.prec FloatOps.emax n 0 false).

(** The conversion of an integer operand that meets a [float]: a [long]
    too large for a [float] is an [OverflowError]. *)
Definition float_of_int (n : Z) : outcome float :=
  let f := Z2F n in
  if is_infinity f then Raised (OverflowError "long int too large to convert to float")
  else Returned f.

(** The [float] of an operand of mixed arithmetic. *)
Definition coerce (a : pynum) : outcome float :=
  match a with
  | PyInt n => float_of_int n
  | PyFloat f => Returned f
  end.

(** [a + b] *)
Definition py_add (a b : pynum) : outcome pynum :=
  match a, b with
  | PyInt m, PyInt n => Returned (PyInt (m + n))
  | _, _ => f <- coerce a ;; g <- coerce b ;; Returned (PyFloat (f + g))
  end.

(** [a * b] *)
Definition py_mul (a b : pynum) : outcome pynum :=
  match a, b with
  | PyInt m, PyInt n => Returned (PyInt (m * n))
  | _, _ => f <- coerce a ;; g <- coerce b ;; Returned (PyFloat (f * g))
  end.

(** [a / b] without [from __future__ import division]: the floor division
    on two integers, the binary64 division otherwise; a zero divisor is a
    [ZeroDivisionError]. *)
Definition py_div (a b : pynum) : outcome pynum :=
  match a, b with
  | PyInt m, PyInt n =>
      if n =? 0 then Raised (ZeroDivisionError "integer division or modulo by zero")
      else Returned (PyInt (m / n))
  | _, _ =>
      f <- coerce a ;; g <- coerce b ;;
      if is_zero g then Raised (ZeroDivisionError "float division by zero")
      else Returned (PyFloat (f / g))
  end.

Module PyNum.

Definition digit_value (c : ascii) : Z := Z.of_N (PyStr.code c) - 48.

(** The longest prefix of decimal digits: its value on top of [acc], how
    many digits it has, and the rest. *)
Fixpoint read_digits (s : string) (acc : Z) (n : nat) : Z * nat * string :=
  match s with
  | String c s' =>
      if PyStr.is_digit c then read_digits s' (10 * acc + digit_value c) (S n)
      else (acc, n, s)
  | EmptyString => (acc, n, s)
  end.

Fixpoint lstrip (s : string) : string :=
  match s with
  | String c s' => if PyStr.is_space c then lstrip s' else s
  | EmptyString => s
  end.

Fixpoint rstrip (s : string) : string :=
  match s with
  | String c s' =>
      match rstrip s' with
      | EmptyString => if PyStr.is_space c then EmptyString else String c EmptyString
      | r => String c r
      end
  | EmptyString => s
  end.

Definition strip (s : string) : string := rstrip (lstrip s).

(** An optional sign: whether it is a minus, and the rest. *)
Definition read_sign (s : string) : bool * string :=
  match s with
  | String "-" s' => (true, s')
  | String "+" s' => (false, s')
  | _ => (false, s)
  end.

(** [int(s)] for a string: surrounding whitespace, an optional sign and at
    least one decimal digit; anything else is a [ValueError]. *)
Definition int_of_string (s : string) : outcome Z :=
  let '(neg, body) := read_sign (strip s) in
  match read_digits body 0 0 with
  | (v, S _, EmptyString) => Returned (if neg then - v else v)
  | _ => Raised (ValueError "invalid literal for int()")
  end.

(** [int(g)] for a group of a match: a group that took no part is [None],
    which [int] refuses with a [TypeError]. *)
Definition py_int (g : option string) : outcome Z :=
  match g with
  | Some s => int_of_string s
  | None => Raised (TypeError "int() argument must be a string or a number")
  end.

(** The exponent part of a decimal literal: absent, or [e], an optional
    sign and at least one digit. *)
Definition read_exponent (s : string) : option (Z * string) :=
  match s with
  | String c s' =>
      if (Ascii.eqb c "e" || Ascii.eqb c "E")%bool then
        let '(neg, body) := read_sign s' in
        match read_digits body 0 0 with
        | (v, S _, rest) => Some (if neg then - v else v, rest)
        | _ => None
        end
      else Some (0, s)
  | EmptyString => Some (0, s)
  end.

(** The magnitude of a decimal literal: digits with an optional fraction
    (at least one digit in all) and an optional exponent, up to the end.
    The result [(m, e)] stands for [m * 10^e]. *)
Definition read_decimal (s : string) : option (Z * Z) :=
  let '(ip, ni, s1) := read_digits s 0 0 in
  let '(m, nf, s2) :=
    match s1 with
    | String "." s1' => read_digits s1' ip 0
    | _ => (ip, 0%nat, s1)
    end in
  match (ni + nf)%nat with
  | O => None
  | S _ =>
      match read_exponent s2 with
      | Some (e, EmptyString) => Some (m, e - Z.of_nat nf)
      | _ => None
      end
  end.

(** The binary64 value nearest to [m * 10^e] for [0 <= m], ties to even,
    with the sign [neg]: an integer is rounded as it is, a fraction by the
    correctly rounded division of [m] by the power of ten.  A magnitude too
    large gives an infinity, one too small a zero or a subnormal number. *)
Definition decimal (neg : bool) (m e : Z) : float :=
  FloatOps.SF2Prim
    (if m =? 0 then SpecFloat.S754_zero neg
     else if 0 <=? e then
       SpecFloat.binary_normalize FloatOps.prec FloatOps.emax
         ((if neg then - m else m) * 10 ^ e) 0 neg
     else
       SpecFloat.SFdiv FloatOps.prec FloatOps.emax
         (SpecFloat.S754_finite neg (Z.to_pos m) 0)
         (SpecFloat.S754_finite false (Z.to_pos (10 ^ (- e))) 0)).

(** [float(s)]: surrounding whitespace, an optional sign, then [inf],
    [infinity] or [nan] in any case, or a decimal literal, which is rounded
    to the nearest [float]; anything else is a [ValueError]. *)
Definition py_float (s : string) : outcome float :=
  let '(neg, body) := read_sign (strip s) in
  let word := PyStr.lower body in
  if (String.eqb word "inf" || String.eqb word "infinity")%bool
  then Returned (if neg then neg_infinity else infinity)
  else if String.eqb word "nan" then Returned nan
  else match read_decimal body with
       | Some (m, e) => Returned (decimal neg m e)
       | None => Raised (ValueError "could not convert string to float")
       end.

End PyNum.

(** Modelled from the spec: [mvc.utils.hms_to_seconds], which the source
    imports and calls; the spec gives it as [HH*3600 + MM*60 + SS], here
    with the arithmetic of the interpreter on the operands it is given. *)
Definition hms_to_seconds (hours minutes seconds : pynum) : outcome pynum :=
  h <- py_mul hours (PyInt 3600) ;;
  m <- py_mul minutes (PyInt 60) ;;
  hm <- py_add h m ;;
  py_add hm seconds.

(** ** Source media and profiles *)

(** The input descriptor: only [filename] is read by the code below. *)
Record Video : Type := {
  filename : string;
  duration : option pynum;
  width : option Z;
  height : option Z
}.

(** [NON_WORD_CHARS.sub("", name)]: every run of characters outside
    [[a-zA-Z0-9]] is deleted. *)
Definition NON_WORD_CHARS_sub (name : string) : string :=
  PyStr.filter PyStr.is_alnum name.

(** A [ConverterInfo] instance.  [media_type], [bitrate] and [extension]
    are the class attributes a subclass sets ([None] in the base class);
    [addr] is the identity of the object, which is what a [dict] keyed by
    the instance compares. *)
Record ConverterInfo : Type := {
  addr : positive;
  name : string;
  identifier : string;
  media_type : option string;
  bitrate : option pynum;
  extension : option string
}.

(** [ConverterInfo.__init__] on a fresh object at [a] whose class carries
    the attributes [mt], [br] and [ext]. *)
Definition ConverterInfo_init (a : positive) (mt : option string)
    (br : option pynum) (ext : option string) (nm : string) : ConverterInfo :=
  {| addr := a;
     name := nm;
     identifier := PyStr.lower (NON_WORD_CHARS_sub nm);
     media_type := mt;
     bitrate := br;
     extension := ext |}.

(** Truth value of an optional string: neither [None] nor empty. *)
Definition truthy (o : option string) : bool :=
  match o with
  | Some s => PyStr.truthy s
  | None => false
  end.

(** ** [os.path] (POSIX flavour) *)

Module PosixPath.

(** [posixpath.basename]: what follows the last slash. *)
Definition basename (p : string) : string :=
  PyStr.slice_from (PyStr.rfind "/" p + 1) p.

(** The loop of [genericpath._splitext] that skips leading dots: [true]
    when some character in [[i, dotIndex)] is not a dot. *)
Fixpoint has_non_dot (p : string) (n : nat) : bool :=
  match n with
  | O => false
  | S n' =>
      match p with
      | String c p' => if Ascii.eqb c "." then has_non_dot p' n' else true
      | EmptyString => false
      end
  end.

(** [posixpath.splitext]: the extension starts at the last dot of the
    last path component, unless only dots precede it there. *)
Definition splitext (p : string) : string * string :=
  let sepIndex := PyStr.rfind "/" p in
  let dotIndex := PyStr.rfind "." p in
  if (sepIndex <? dotIndex) &&
     has_non_dot (PyStr.slice_from (sepIndex + 1) p) (Z.to_nat (dotIndex - (sepIndex + 1)))
  then (PyStr.slice_to dotIndex p, PyStr.slice_from dotIndex p)
  else (p, EmptyString).

End PosixPath.

(** [ConverterInfo.get_output_filename] *)
Definition get_output_filename (self : ConverterInfo) (video : Video) : string :=
  let basename := PosixPath.basename (filename video) in
  let '(name, ext) := PosixPath.splitext basename in
  let ext :=
    match ext with
    | String "." ext' => ext'
    | _ => ext
    end in
  let extension :=
    if truthy (extension self) then default EmptyString (extension self) else ext in
  name ++ "." ++ identifier self ++ "." ++ extension.

(** ** The diagnostic-line classifier *)

(** What [process_status_line] returns, besides [None]. *)
Inductive event : Type :=
| EvError (error : string)
| EvDuration (seconds : pynum)
| EvProgress (seconds : pynum)
| EvFinished.

(** The patterns are class attributes, looked up through [klass]. *)
Record FFmpegClass : Type := {
  DURATION_RE : Re.pattern;
  PROGRESS_RE : Re.pattern;
  LAST_PROGRESS_RE : Re.pattern
}.

Definition digit2 : Re.regex := Re.Cat (Re.Class PyStr.is_digit) (Re.Class PyStr.is_digit).
Definition any : Re.regex := Re.Star PyStr.is_dot.

Definition FFmpegConverterInfoBase : FFmpegClass := {|
  DURATION_RE := Re.Pattern
    (Re.cat [Re.Star PyStr.is_nonword; Re.Lit "Duration: ";
             Re.Group 1 digit2; Re.Lit ":"; Re.Group 2 digit2; Re.Lit ":";
             Re.Group 3 digit2; Re.Lit "."; Re.Group 4 digit2;
             Re.Opt (Re.Group 5 (Re.Cat (Re.Lit ", start:") any));
             Re.Opt (Re.Group 6 (Re.Cat (Re.Lit ", bitrate:") any))]) 6;
  PROGRESS_RE := Re.Pattern
    (Re.cat [Re.Opt (Re.cat [Re.Lit "frame="; any; Re.Lit " fps="; any;
                             Re.Lit " q="; any; Re.Lit " "]);
             Re.Lit "size="; any; Re.Lit " time="; Re.Group 1 any;
             Re.Lit " bitrate="; Re.Group 2 any]) 2;
  LAST_PROGRESS_RE := Re.Pattern
    (Re.cat [Re.Lit "frame="; any; Re.Lit " fps="; any; Re.Lit " q="; any;
             Re.Lit " Lsize="; any; Re.Lit " time="; Re.Group 1 any;
             Re.Lit " bitrate="; Re.Group 2 any]) 2
|}.

(** [FFmpegConverterInfoBase._check_for_errors] *)
Definition _check_for_errors (line : string) : option string :=
  if PyStr.startswith "Unknown" line then Some line
  else if PyStr.startswith "Error" line then
    if negb (PyStr.startswith "Error while decoding stream" line) then Some line
    else None
  else None.

(** The duration branch: the first four groups as integers, and
    [hms_to_seconds(hours, minutes, seconds + 0.01 * centi)]. *)
Definition duration_event (m : Re.captures) : outcome (option event) :=
  ns <- for_each PyNum.py_int (take 4 (Re.groups m)) ;;
  match ns with
  | [hours; minutes; seconds; centi] =>
      c <- py_mul (PyFloat 0.01) (PyInt centi) ;;
      s <- py_add (PyInt seconds) c ;;
      d <- hms_to_seconds (PyInt hours) (PyInt minutes) s ;;
      Returned (Some (EvDuration d))
  | _ => Raised (ValueError "wrong number of values to unpack")
  end.

(** The progress branch: [time=] holds [H:M:S] or a bare number. *)
Definition progress_event (m : Re.captures) : outcome (option event) :=
  match Re.group m 1 with
  | None => Raised (TypeError "argument of type 'NoneType' is not iterable")
  | Some t =>
      if PyStr.contains ":" t then
        fs <- for_each PyNum.py_float (take 3 (PyStr.split ":" t)) ;;
        match fs with
        | [hours; minutes; seconds] =>
            p <- hms_to_seconds (PyFloat hours) (PyFloat minutes) (PyFloat seconds) ;;
            Returned (Some (EvProgress p))
        | _ => Raised (ValueError "need more than 2 values to unpack")
        end
      else
        p <- PyNum.py_float t ;; Returned (Some (EvProgress (PyFloat p)))
  end.

(** [FFmpegConverterInfoBase.process_status_line] *)
Definition process_status_line (klass : FFmpegClass) (video : Video)
    (line : string) : outcome (option event) :=
  let error := _check_for_errors line in
  if truthy error then Returned (Some (EvError (default EmptyString error)))
  else
    match Re.re_match (DURATION_RE klass) line with
    | Some m => duration_event m
    | None =>
        match Re.re_match (PROGRESS_RE klass) line with
        | Some m => progress_event m
        | None =>
            match Re.re_match (LAST_PROGRESS_RE klass) line with
            | Some _ => Returned (Some EvFinished)
            | None => Returned None
            end
        end
    end.

(** ** The finalize step *)

(** What [finalize] does to the outside world, in the order it does it. *)
Inductive call : Type :=
| CallProcess (src dst : string)
| CallMove (src dst : string)
| CallRemove (path : string)
| LogDebug (msg : string)
| LogException (msg : string)
| LogError (msg : string).

Section Finalize.

(** The collaborators act on a world of their own.  [processor.process]
    belongs to [mvc.qtfaststart], which the source only imports: it may
    raise anything.  [shutil.move] and [os.remove] report a failure as an
    [EnvironmentError], given here by its message. *)
Context {World : Type}.
Variable processor_process : string -> string -> World -> option exn * World.
Variable shutil_move : string -> string -> World -> option string * World.
Variable os_remove : string -> World -> option string * World.

Record state : Type := State { world : World; trace : list call }.

Definition record (c : call) (st : state) : state :=
  State (world st) (trace st ++ [c]).

Definition is_str (o : option string) (s : string) : bool :=
  match o with
  | Some x => String.eqb x s
  | None => false
  end.

(** The guard of the first branch. *)
Definition wants_remux (self : ConverterInfo) : bool :=
  is_str (media_type self) "format" && is_str (extension self) "mp4".

(** The first [if]: the pending error [err] and [needs_remove], unless an
    exception that no handler catches leaves [finalize] at once. *)
Definition commit (self : ConverterInfo) (temp_output output : string)
    (st : state) : outcome (option exn * bool) * state :=
  if wants_remux self then
    let st := record (LogDebug "generic mp4 format detected.  Running qtfaststart...") st in
    let st := record (CallProcess temp_output output) st in
    match processor_process temp_output output (world st) with
    | (None, w) => (Returned (None, true), State w (trace st))
    | (Some (FastStartException _), w) =>
        let st := record (LogException "qtfaststart: exception occurred") (State w (trace st)) in
        (Returned (Some (EnvironmentError "qtfaststart exception"), true), st)
    | (Some e, w) => (Raised e, State w (trace st))
    end
  else
    let st := record (CallMove temp_output output) st in
    match shutil_move temp_output output (world st) with
    | (None, w) => (Returned (None, false), State w (trace st))
    | (Some msg, w) => (Returned (Some (EnvironmentError msg), true), State w (trace st))
    end.

(** The second [if]: the removal of the stale file. *)
Definition cleanup (temp_output : string) (err : option exn) (needs_remove : bool)
    (st : state) : outcome unit * state :=
  if needs_remove then
    let st := record (CallRemove temp_output) st in
    match os_remove temp_output (world st) with
    | (None, w) => (Returned tt, State w (trace st))
    | (Some _, w) =>
        let st := record (LogError "finalize(): cannot remove stale file") (State w (trace st)) in
        match err with
        | Some e =>
            (Raised e, record (LogError "finalize(): removal was in response to error") st)
        | None => (Returned tt, st)
        end
    end
  else (Returned tt, st).

(** [ConverterInfo.finalize] *)
Definition finalize (self : ConverterInfo) (temp_output output : string)
    (st : state) : outcome unit * state :=
  match commit self temp_output output st with
  | (Returned (err, needs_remove), st') => cleanup temp_output err needs_remove st'
  | (Raised e, st') => (Raised e, st')
  end.

(** The commit operation of a call: the remux pass or the move, and
    whether it fails. *)
Definition commit_fails (self : ConverterInfo) (temp_output output : string)
    (w : World) : bool :=
  if wants_remux self then
    match processor_process temp_output output w with
    | (Some _, _) => true
    | (None, _) => false
    end
  else
    match shutil_move temp_output output w with
    | (Some _, _) => true
    | (None, _) => false
    end.

(** Whether a call assigns [needs_remove = True]: on the remux branch
    before [processor.process] is called, on the other branch in the
    handler of a failed move. *)
Definition marks_removal (self : ConverterInfo) (temp_output output : string)
    (w : World) : bool :=
  if wants_remux self then true
  else
    match shutil_move temp_output output w with
    | (Some _, _) => true
    | (None, _) => false
    end.

(** The calls a run adds to the trace of the state it starts from. *)
Definition extends (st st' : state) (calls : list call) : Prop :=
  trace st' = (trace st ++ calls)%list.

End Finalize.

Arguments state World : clear implicits.
Arguments State {World} world trace.
Arguments world {World} s.
Arguments trace {World} s.

(** A world to run [finalize] in: the set of paths that exist, and the
    set of paths the process may neither create nor delete. *)
Module PosixFS.

Record fs : Type := Fs { files : gset string; denied : gset string }.

Definition ENOENT : string := "No such file or directory".
Definition EACCES : string := "Permission denied".
Definition EPERM : string := "Operation not permitted".

Definition move (src dst : string) (w : fs) : option string * fs :=
  if bool_decide (src ∈ files w) then
    if bool_decide (dst ∈ denied w) then (Some EACCES, w)
    else (None, Fs ({[dst]} ∪ (files w ∖ {[src]})) (denied w))
  else (Some ENOENT, w).

Definition remove (path : string) (w : fs) : option string * fs :=
  if bool_decide (path ∈ files w) then
    if bool_decide (path ∈ denied w) then (Some EPERM, w)
    else (None, Fs (files w ∖ {[path]}) (denied w))
  else (Some ENOENT, w).

(** Modelled from the spec: the remux collaborator
    [mvc.qtfaststart.processor.process], absent from the source.  It
    writes [dst] from [src], keeps [src], and reports failure by its own
    exception without touching either path. *)
Definition remux (src dst : string) (w : fs) : option exn * fs :=
  if bool_decide (src ∈ files w) && negb (bool_decide (dst ∈ denied w))
  then (None, Fs ({[dst]} ∪ files w) (denied w))
  else (Some (FastStartException "remux failed"), w).

Definition finalize (self : ConverterInfo) (temp_output output : string)
    (st : state fs) : outcome unit * state fs :=
  finalize remux move remove self temp_output output st.

End PosixFS.

(** ** The registry *)

(** An element of a [converters] list: a bare converter, or a tuple of a
    brand and its converters. *)
Inductive entry : Type :=
| Bare (converter : ConverterInfo)
| Grouped (brand : string) (realconverters : list ConverterInfo).

(** [converters] maps an identifier to its converter; [brand_rmap] maps a
    converter (the object, hence its [addr]) to its brand; [brand_map]
    maps a brand, or [None], to its converters in loading order. *)
Record ConverterManager : Type := {
  converters : gmap string ConverterInfo;
  brand_rmap : gmap positive (option string);
  brand_map : gmap (option string) (list ConverterInfo)
}.

(** [ConverterManager.__init__] *)
Definition ConverterManager_init : ConverterManager :=
  {| converters := ∅; brand_rmap := ∅; brand_map := ∅ |}.

(** [ConverterManager.add_converter] *)
Definition add_converter (converter : ConverterInfo) (self : ConverterManager)
    : ConverterManager :=
  {| converters := <[identifier converter := converter]> (converters self);
     brand_rmap := brand_rmap self;
     brand_map := brand_map self |}.

(** [ConverterManager.brand_to_converters] *)
Definition brand_to_converters (brand : option string) (self : ConverterManager)
    : option (list ConverterInfo) :=
  brand_map self !! brand.

(** [ConverterManager.converter_to_brand]: a [KeyError] becomes [None]. *)
Definition converter_to_brand (converter : ConverterInfo) (self : ConverterManager)
    : option string :=
  match brand_rmap self !! addr converter with
  | Some brand => brand
  | None => None
  end.

(** The three statements both loaders run for one converter:
    [brand_rmap[c] = brand], [brand_map.setdefault(brand, []).append(c)]
    and [add_converter(c)]. *)
Definition register (brand : option string) (c : ConverterInfo)
    (self : ConverterManager) : ConverterManager :=
  add_converter c
    {| converters := converters self;
       brand_rmap := <[addr c := brand]> (brand_rmap self);
       brand_map :=
         <[brand := (default [] (brand_map self !! brand) ++ [c])%list]> (brand_map self) |}.

(** The body of the loop over a [converters] list. *)
Definition load_entry (self : ConverterManager) (e : entry) : ConverterManager :=
  match e with
  | Grouped brand realconverters =>
      foldl (fun r c => register (Some brand) c r) self realconverters
  | Bare converter => register None converter self
  end.

(** [ConverterManager.load_simple_converters], given the list
    [basicconverters.converters]. *)
Definition load_simple_converters (basic : list entry) (self : ConverterManager)
    : ConverterManager :=
  foldl load_entry self basic.

(** [ConverterManager.load_converters], given for each file the value of
    [converters] in the namespace it leaves, if it defines one. *)
Definition load_converters (units : list (option (list entry)))
    (self : ConverterManager) : ConverterManager :=
  foldl (fun r u => match u with
                    | Some es => foldl load_entry r es
                    | None => r
                    end) self units.

(** [ConverterManager.list_converters] *)
Definition list_converters (self : ConverterManager) : list ConverterInfo :=
  (map_to_list (converters self)).*2.

(** [ConverterManager.get_by_id]: [None] stands for the [KeyError]. *)
Definition get_by_id (id_ : string) (self : ConverterManager) : option ConverterInfo :=
  converters self !! id_.

(** What a caller may do to a registry. *)
Inductive op : Type :=
| AddConverter (c : ConverterInfo)
| LoadSimple (basic : list entry)
| LoadConverters (units : list (option (list entry))).

Definition step (self : ConverterManager) (o : op) : ConverterManager :=
  match o with
  | AddConverter c => add_converter c self
  | LoadSimple basic => load_simple_converters basic self
  | LoadConverters units => load_converters units self
  end.

Definition run (ops : list op) (self : ConverterManager) : ConverterManager :=
  foldl step self ops.

(** The converters an entry, an operation or a history hands to the
    brand-aware loaders. *)
Definition entry_converters (e : entry) : list ConverterInfo :=
  match e with
  | Bare c => [c]
  | Grouped _ cs => cs
  end.

Definition op_loaded (o : op) : list ConverterInfo :=
  match o with
  | AddConverter _ => []
  | LoadSimple basic => basic ≫= entry_converters
  | LoadConverters units => units ≫= (fun u => default [] u ≫= entry_converters)
  end.

Definition loaded (ops : list op) : list ConverterInfo := ops ≫= op_loaded.

(** The object [c] is a key of no brand and a member of no brand group. *)
Definition unbranded (c : ConverterInfo) (self : ConverterManager) : Prop :=
  brand_rmap self !! addr c = None /\
  forall b l c', brand_map self !! b = Some l -> c' ∈ l -> addr c' ≠ addr c.

(** A two-digit field of a time stamp, and the integer it spells. *)
Definition two_digits (a b : ascii) : string := String a (String b EmptyString).

Definition value2 (a b : ascii) : Z := 10 * PyNum.digit_value a + PyNum.digit_value b.

(** The text of a duration line after its leading non-word characters:
    [Duration: HH:MM:SS.CC] and whatever follows. *)
Definition duration_text (h1 h2 m1 m2 s1 s2 c1 c2 : ascii) (rest : string) : string :=
  "Duration: " ++ two_digits h1 h2 ++ ":" ++ two_digits m1 m2 ++ ":" ++
  two_digits s1 s2 ++ "." ++ two_digits c1 c2 ++ rest.

Arguments duration_text (h1 h2 m1 m2 s1 s2 c1 c2)%_char rest%_string.

(** What the duration pattern leaves in its first four groups. *)
Definition duration_groups (hh mm ss cc : string) (m : Re.captures) : Prop :=
  length m = 7%nat /\
  m !! 1%nat = Some (Some hh) /\ m !! 2%nat = Some (Some mm) /\
  m !! 3%nat = Some (Some ss) /\ m !! 4%nat = Some (Some cc).

(** ** The history of a registry *)

(** [ConverterManager.startup], given the list [basicconverters.converters]
    and, for each script of [resources.converter_scripts()], the value of
    [converters] it defines. *)
Definition startup (basic : list entry) (units : list (option (list entry)))
    (self : ConverterManager) : ConverterManager :=
  load_converters units (load_simple_converters basic self).

(** What a call hands to the registry, converter by converter, in the
    order the loops run: [Added c] for a direct [add_converter(c)],
    [Loaded brand c] for the three statements a loader runs for [c]. *)
Inductive reg_event : Type :=
| Added (c : ConverterInfo)
| Loaded (brand : option string) (c : ConverterInfo).

Definition apply_event (self : ConverterManager) (ev : reg_event) : ConverterManager :=
  match ev with
  | Added c => add_converter c self
  | Loaded brand c => register brand c self
  end.

Definition event_converter (ev : reg_event) : ConverterInfo :=
  match ev with
  | Added c => c
  | Loaded _ c => c
  end.

(** The brand a loader attached, if the event is a loader's. *)
Definition event_brand (ev : reg_event) : option (option string) :=
  match ev with
  | Added _ => None
  | Loaded brand _ => Some brand
  end.

(** The object a loader keyed [brand_rmap] with, if the event is a
    loader's. *)
Definition event_key (ev : reg_event) : option positive :=
  match ev with
  | Added _ => None
  | Loaded _ c => Some (addr c)
  end.

Definition entry_events (e : entry) : list reg_event :=
  match e with
  | Bare c => [Loaded None c]
  | Grouped brand cs => Loaded (Some brand) <$> cs
  end.

Definition op_events (o : op) : list reg_event :=
  match o with
  | AddConverter c => [Added c]
  | LoadSimple basic => basic ≫= entry_events
  | LoadConverters units => units ≫= (fun u => default [] u ≫= entry_events)
  end.

Definition events (ops : list op) : list reg_event := ops ≫= op_events.

(** The events that concern one identifier, one brand, one object. *)
Definition for_identifier (id_ : string) (evs : list reg_event) : list reg_event :=
  filter (fun ev => identifier (event_converter ev) = id_) evs.

Definition for_brand (brand : option string) (evs : list reg_event) : list reg_event :=
  filter (fun ev => event_brand ev = Some brand) evs.

Definition for_object (c : ConverterInfo) (evs : list reg_event) : list reg_event :=
  filter (fun ev => event_key ev = Some (addr c)) evs.

(** ** What [finalize] does, without its log records *)

Definition is_log (c : call) : bool :=
  match c with
  | LogDebug _ | LogException _ | LogError _ => true
  | _ => false
  end.

(** The calls to the collaborators, in order. *)
Definition effects (calls : list call) : list call :=
  filter (fun c => is_log c = false) calls.

Definition is_FastStartException (e : exn) : bool :=
  match e with
  | FastStartException _ => true
  | _ => false
  end.

(** ** The size guess *)

(** Truth value of an optional number: neither [None] nor zero (a
    [float] zero of either sign; not-a-number is true). *)
Definition truthy_num (o : option pynum) : bool :=
  match o with
  | Some (PyInt n) => negb (n =? 0)
  | Some (PyFloat f) => negb (is_zero f)
  | None => false
  end.

(** [ConverterInfo.get_output_size_guess]: [bitrate * duration / 8] with
    the arithmetic of Python 2 on the two attributes. *)
Definition get_output_size_guess (self : ConverterInfo) (video : Video)
    : outcome (option pynum) :=
  if negb (truthy_num (bitrate self)) || negb (truthy_num (duration video))
  then Returned None
  else if truthy_num (duration video) then
    match bitrate self, duration video with
    | Some b, Some d =>
        p <- py_mul b d ;; q <- py_div p (PyInt 8) ;; Returned (Some q)
    | _, _ => Raised (TypeError "unsupported operand type(s) for *")
    end
  else Returned None.

(** ** Argument vectors *)

(** [str.split()] without arguments: the maximal runs of characters that
    are not white space. *)
Fixpoint str_split (s : string) : list string :=
  match s with
  | EmptyString => []
  | String c s' =>
      if PyStr.is_space c then str_split s'
      else
        match s' with
        | EmptyString => [String c EmptyString]
        | String d _ =>
            if PyStr.is_space d then String c EmptyString :: str_split s'
            else
              match str_split s' with
              | w :: ws => String c w :: ws
              | [] => [String c EmptyString]
              end
        end
  end.

(** ['%i' % n] for an integer. *)
Definition str_of_int (n : Z) : string := NilZero.string_of_int (Z.to_int n).

(** The exception of the methods a subclass must override. *)
Definition NotImplementedError : exn := Exception "NotImplementedError".

(** An argument of a command line no shell has to quote: not empty, and
    free of white space. *)
Definition plain_word (a : string) : Prop :=
  a <> EmptyString /\ PyStr.forallb (fun c => negb (PyStr.is_space c)) a = true.

Module FFmpegConverterInfo.

(** An [FFmpegConverterInfo] instance: the [ConverterInfo] part, the
    target box and upsize policy [__init__] stores, and the class
    attribute [parameters] ([None] in the class itself). *)
Record t : Type := {
  base : ConverterInfo;
  width : option Z;
  height : option Z;
  dont_upsize : bool;
  parameters : option string
}.

(** [FFmpegConverterInfo.__init__], on a fresh object at [a] of a class
    with the attributes [mt], [br], [ext] and [params]. *)
Definition init (a : positive) (mt : option string) (br : option pynum)
    (ext params : option string) (nm : string) (w h : option Z) (upsize : bool) : t :=
  {| base := ConverterInfo_init a mt br ext nm;
     width := w; height := h; dont_upsize := upsize;
     parameters := params |}.

End FFmpegConverterInfo.

Section CommandLine.

(** [settings.customize_ffmpeg_parameters], [utils.rescale_video] and
    [str.format] with the keywords [ssize], [input] and [output]: the first
    two belong to modules the source only imports, the third to the
    interpreter; each may raise. *)
Variable customize_ffmpeg_parameters : list string -> outcome (list string).
Variable rescale_video :
  option Z * option Z -> option Z * option Z -> bool -> outcome (Z * Z).
Variable str_format : string -> string -> string -> string -> outcome string.

(** [FFmpegConverterInfo.get_extra_arguments] *)
Definition get_extra_arguments (self : FFmpegConverterInfo.t) (video : Video)
    (output : string) : outcome (list string) :=
  match FFmpegConverterInfo.parameters self with
  | None => Raised NotImplementedError
  | Some params =>
      wh <- rescale_video (width video, height video)
              (FFmpegConverterInfo.width self, FFmpegConverterInfo.height self)
              (FFmpegConverterInfo.dont_upsize self) ;;
      let ssize := str_of_int wh.1 ++ "x" ++ str_of_int wh.2 in
      text <- str_format params ssize (filename video) output ;;
      Returned (str_split text)
  end.

(** [FFmpegConverterInfoBase.get_arguments], over the
    [get_extra_arguments] of the instance. *)
Definition get_arguments (extra : Video -> string -> outcome (list string))
    (video : Video) (output : string) : outcome (list string) :=
  args <- extra video output ;;
  extra_args <- customize_ffmpeg_parameters args ;;
  Returned (["-i"; filename video; "-strict"; "experimental"] ++ extra_args ++ [output])%list.

End CommandLine.

(** ** Groups that every match sets *)

(** The groups of an expression that lie under no optional part. *)
Fixpoint mandatory_groups (r : Re.regex) : list nat :=
  match r with
  | Re.Cat r1 r2 => mandatory_groups r1 ++ mandatory_groups r2
  | Re.Group n r1 => n :: mandatory_groups r1
  | _ => []
  end.

(** [caps'] has the slots of [caps], and every group set in [caps] is
    set in [caps']. *)
Definition keeps (caps caps' : Re.captures) : Prop :=
  length caps' = length caps /\
  forall n t, caps !! n = Some (Some t) -> exists t', caps' !! n = Some (Some t').

(** The ten decimal digits. *)
Definition digit_chars : list ascii :=
  ["0"; "1"; "2"; "3"; "4"; "5"; "6"; "7"; "8"; "9"]%char.

(** Whether [l] occurs in [s], at any position. *)
Fixpoint occurs (l s : string) : bool :=
  PyStr.startswith l s ||
  match s with
  | String _ s' => occurs l s'
  | EmptyString => false
  end.

(** A time stamp [HH:MM:SS.CC]. *)
Definition time_stamp (h1 h2 m1 m2 s1 s2 c1 c2 : ascii) : string :=
  two_digits h1 h2 ++ ":" ++ two_digits m1 m2 ++ ":" ++
  two_digits s1 s2 ++ "." ++ two_digits c1 c2.

Arguments time_stamp (h1 h2 m1 m2 s1 s2 c1 c2)%_char.

(** ** The duration as the specification words it *)

(** [HH*3600 + MM*60 + SS + 0.01*CC] on the four integers, read as the
    expression it is: the sums and products from left to right, so that
    the hundredths are added last, to the whole seconds of the stamp. *)
Definition spec_duration (hh mm ss cc : Z) : outcome pynum :=
  h <- py_mul (PyInt hh) (PyInt 3600) ;;
  m <- py_mul (PyInt mm) (PyInt 60) ;;
  hm <- py_add h m ;;
  hms <- py_add hm (PyInt ss) ;;
  c <- py_mul (PyFloat 0.01) (PyInt cc) ;;
  py_add hms c.

(** * Properties *)

(** ** Sample inputs *)

Definition sample_video : Video :=
  {| filename := "/home/user/clips/holiday.2012.avi";
     duration := None; width := None; height := None |}.

(** A generic MP4 profile: the one kind [finalize] remuxes. *)
Definition sample_mp4 : ConverterInfo :=
  ConverterInfo_init 1 (Some "format") None (Some "mp4") "MP4".

(** A profile that [finalize] commits by a plain move. *)
Definition sample_theora : ConverterInfo :=
  ConverterInfo_init 2 (Some "format") None (Some "ogv") "Ogg Theora".

(** The temporary output exists and nothing is protected. *)
Definition sample_fs : PosixFS.fs := PosixFS.Fs {["/tmp/out.tmp"]} ∅.

(** The temporary output exists, the destination cannot be written. *)
Definition protected_fs : PosixFS.fs :=
  PosixFS.Fs {["/tmp/out.tmp"]} {["/media/holiday.ogv"]}.

(** Neither the destination nor the temporary output may be touched. *)
Definition locked_fs : PosixFS.fs :=
  PosixFS.Fs {["/tmp/out.tmp"]} {["/media/holiday.ogv"; "/tmp/out.tmp"]}.

(** The temporary output exists and cannot be deleted. *)
Definition sticky_fs : PosixFS.fs :=
  PosixFS.Fs {["/tmp/out.tmp"]} {["/tmp/out.tmp"]}.

(** The temporary output is gone, as after a first [finalize]. *)
Definition finalized_fs : PosixFS.fs := PosixFS.Fs {["/media/holiday.mp4"]} ∅.

(** A remux pass that opens its input first: a missing input is the
    [IOError] of [open], an [EnvironmentError] outside
    [FastStartException]. *)
Definition remux_open (src dst : string) (w : PosixFS.fs) : option exn * PosixFS.fs :=
  if bool_decide (src ∈ PosixFS.files w) then PosixFS.remux src dst w
  else (Some (EnvironmentError PosixFS.ENOENT), w).

(** ** [finalize] *)

Section FinalizeFacts.

Context {World : Type}.
Variable pp : string -> string -> World -> option exn * World.
Variable mv : string -> string -> World -> option string * World.
Variable rm : string -> World -> option string * World.

Lemma extends_trans (st1 st2 st3 : state World) cs1 cs2 :
  extends st1 st2 cs1 -> extends st2 st3 cs2 -> extends st1 st3 (cs1 ++ cs2)%list.
Proof.
  unfold extends. intros H1 H2. rewrite H2, H1. by rewrite app_assoc.
Qed.

Ltac split_trace :=
  cbn; rewrite <- ?app_assoc; eexists; split; [reflexivity | cbn].

Ltac not_in_calls :=
  let H := fresh in
  intros ? H;
  repeat (apply elem_of_cons in H as [H | H]; [discriminate H |]);
  by apply elem_of_nil in H.

(** The commit phase never asks for a removal itself. *)
Lemma commit_calls self t o st r st' :
  commit pp mv self t o st = (r, st') ->
  exists calls, extends st st' calls /\ forall p, CallRemove p ∉ calls.
Proof.
  unfold commit, record, extends.
  destruct (wants_remux self); cbn.
  - destruct (pp t o (world st)) as [[[]|] w]; cbn; intros [= <- <-];
      split_trace; not_in_calls.
  - destruct (mv t o (world st)) as [[m|] w]; cbn; intros [= <- <-];
      split_trace; not_in_calls.
Qed.

(** The cleanup phase asks for the removal exactly when it was marked
    needed, and then as its first call. *)
Lemma cleanup_calls t err needs st r st' :
  cleanup rm t err needs st = (r, st') ->
  exists calls, extends st st' calls /\
    if needs then exists rest, calls = CallRemove t :: rest
    else calls = [].
Proof.
  unfold cleanup, record, extends.
  destruct needs; cbn.
  - destruct (rm t (world st)) as [[m|] w]; [destruct err |]; cbn;
      intros [= <- <-]; split_trace; eauto.
  - intros [= <- <-]. exists []. by rewrite app_nil_r.
Qed.

(** A commit that succeeds leaves no pending error, and marks the
    removal exactly on the remux path. *)
Lemma commit_success self t o st :
  commit_fails pp mv self t o (world st) = false ->
  exists st1, commit pp mv self t o st = (Returned (None, wants_remux self), st1).
Proof.
  unfold commit_fails, commit, record.
  destruct (wants_remux self); cbn.
  - destruct (pp t o (world st)) as [[e|] w]; [discriminate | eauto].
  - destruct (mv t o (world st)) as [[m|] w]; [discriminate | eauto].
Qed.

(** Without a pending error the cleanup phase returns normally. *)
Lemma cleanup_no_pending t needs st :
  (cleanup rm t None needs st).1 = Returned tt.
Proof.
  unfold cleanup. destruct needs; [|done].
  by destruct (rm t _) as [[m|] w].
Qed.

(** A removal that succeeds drops the pending error. *)
Lemma cleanup_removed t err st w :
  rm t (world st) = (None, w) ->
  (cleanup rm t err true st).1 = Returned tt.
Proof. unfold cleanup, record. cbn. by intros ->. Qed.

(** What [finalize] can raise: the pending error of the commit phase when
    the removal fails as well, or what [processor.process] raised outside
    its own exception class. *)
Lemma finalize_raises self t o st e st' :
  finalize pp mv rm self t o st = (Raised e, st') ->
  (exists st1, commit pp mv self t o st = (Raised e, st1)) \/
  (exists st1 msg w,
      commit pp mv self t o st = (Returned (Some e, true), st1) /\
      rm t (world st1) = (Some msg, w)).
Proof.
  unfold finalize.
  destruct (commit pp mv self t o st) as [[[err needs]|e0] st1] eqn:Hc.
  - unfold cleanup, record. destruct needs; cbn; [|discriminate].
    destruct (rm t (world st1)) as [[msg|] w] eqn:Hr; [|discriminate].
    destruct err as [e1|]; [|discriminate].
    intros [= -> <-]. right. eauto.
  - intros [= -> <-]. left. eauto.
Qed.

(** C1 (amended): when the commit operation of a call of [finalize]
    succeeds, [finalize] raises no exception.  If the commit was the move,
    the move is the only call and no removal is performed; if it was the
    remux pass, which keeps its input, the removal of [temp_output] is the
    next call, and a failure of that removal is logged as an error and not
    raised. *)
Theorem finalize_commit_success self t o st :
  commit_fails pp mv self t o (world st) = false ->
  exists st' calls,
    finalize pp mv rm self t o st = (Returned tt, st') /\
    extends st st' calls /\
    if wants_remux self then
      exists w1 failure w2,
        pp t o (world st) = (None, w1) /\
        rm t w1 = (failure, w2) /\
        world st' = w2 /\
        calls =
          ([LogDebug "generic mp4 format detected.  Running qtfaststart...";
            CallProcess t o; CallRemove t] ++
           match failure with
           | Some _ => [LogError "finalize(): cannot remove stale file"]
           | None => []
           end)%list
    else calls = [CallMove t o].
Proof.
  unfold commit_fails, finalize, commit, cleanup, record, extends.
  destruct (wants_remux self); cbn.
  - destruct (pp t o (world st)) as [[e|] w1] eqn:Hpp; [discriminate|]. intros _. cbn.
    destruct (rm t w1) as [failure w2] eqn:Hrm.
    exists (State w2 (trace st ++
      [LogDebug "generic mp4 format detected.  Running qtfaststart...";
       CallProcess t o; CallRemove t] ++
      match failure with
      | Some _ => [LogError "finalize(): cannot remove stale file"]
      | None => []
      end)%list).
    eexists. split; [|split; [reflexivity|]].
    + destruct failure; cbn; by rewrite <- ?app_assoc, ?app_nil_r.
    + by exists w1, failure, w2.
  - destruct (mv t o (world st)) as [[m|] w1]; [discriminate|]. intros _. cbn.
    by eexists _, _.
Qed.

(** C3 (amended): in a call of [finalize] that marks the removal of
    [temp_output] as needed, one of two things happens.  Either the remux
    pass raises an exception outside [FastStartException]: no handler
    catches it, it leaves [finalize] at once and no removal is attempted.
    Or the commit phase completes, the removal is the next call, and if
    the removal fails while an error of the commit operation is pending,
    [finalize] raises that pending error, whatever the error of the
    removal is. *)
Theorem finalize_removal_failure_keeps_original self t o st :
  marks_removal mv self t o (world st) = true ->
  (exists e w calls,
      wants_remux self = true /\
      pp t o (world st) = (Some e, w) /\
      is_FastStartException e = false /\
      finalize pp mv rm self t o st = (Raised e, State w (trace st ++ calls)) /\
      forall p, CallRemove p ∉ calls) \/
  (exists err st1,
      commit pp mv self t o st = (Returned (err, true), st1) /\
      (exists r st' rest,
          finalize pp mv rm self t o st = (r, st') /\
          extends st1 st' (CallRemove t :: rest)) /\
      (forall e msg w,
          err = Some e -> rm t (world st1) = (Some msg, w) ->
          (finalize pp mv rm self t o st).1 = Raised e)).
Proof.
  intros Hmark.
  destruct (commit pp mv self t o st) as [[[err needs]|e] st1] eqn:Hc.
  - right. assert (needs = true) as ->.
    { revert Hmark Hc. unfold marks_removal, commit, record.
      destruct (wants_remux self); cbn.
      - destruct (pp t o (world st)) as [[[]|] w]; cbn; intros _ [= _ <- _]; done.
      - destruct (mv t o (world st)) as [[m|] w]; cbn; [|discriminate].
        by intros _ [= _ <- _]. }
    exists err, st1. split; [done|]. unfold finalize. rewrite Hc. split.
    + destruct (cleanup rm t err true st1) as [r st'] eqn:Hcl.
      destruct (cleanup_calls _ _ _ _ _ _ Hcl) as (cs & He & rest & ->).
      by exists r, st', rest.
    + intros e msg w -> Hrm. unfold cleanup, record. cbn. by rewrite Hrm.
  - left. unfold finalize. rewrite Hc. revert Hc. unfold commit, record.
    destruct (wants_remux self); cbn.
    + destruct (pp t o (world st)) as [[e0|] w] eqn:Hpp; cbn; [|discriminate].
      destruct e0; cbn; try discriminate; intros [= <- <-];
        eexists _, w, _; (do 3 (split; [done|])); cbn;
        (split; [by rewrite <- ?app_assoc|]); not_in_calls.
    + destruct (mv t o (world st)) as [[m|] w]; discriminate.
Qed.

End FinalizeFacts.

(** *** [finalize] on the sample file systems *)

(** C1 (as stated, refuted): the remux of the sample MP4 profile succeeds,
    and [finalize] goes on to remove the temporary output. *)
Lemma finalize_remux_success_removes_temp :
  commit_fails PosixFS.remux PosixFS.move sample_mp4
    "/tmp/out.tmp" "/media/holiday.mp4" sample_fs = false /\
  PosixFS.finalize sample_mp4 "/tmp/out.tmp" "/media/holiday.mp4" (State sample_fs []) =
    (Returned tt,
     State (PosixFS.Fs {["/media/holiday.mp4"]} ∅)
       [LogDebug "generic mp4 format detected.  Running qtfaststart...";
        CallProcess "/tmp/out.tmp" "/media/holiday.mp4";
        CallRemove "/tmp/out.tmp"]).
Proof. split; [by vm_compute|]. by vm_compute. Qed.

Lemma finalize_commit_success_witness :
  exists st' calls,
    PosixFS.finalize sample_mp4 "/tmp/out.tmp" "/media/holiday.mp4" (State sticky_fs []) =
      (Returned tt, st') /\
    extends (State sticky_fs []) st' calls /\
    exists w1 failure w2,
      PosixFS.remux "/tmp/out.tmp" "/media/holiday.mp4" sticky_fs = (None, w1) /\
      PosixFS.remove "/tmp/out.tmp" w1 = (failure, w2) /\
      world st' = w2 /\
      calls =
        ([LogDebug "generic mp4 format detected.  Running qtfaststart...";
          CallProcess "/tmp/out.tmp" "/media/holiday.mp4"; CallRemove "/tmp/out.tmp"] ++
         match failure with
         | Some _ => [LogError "finalize(): cannot remove stale file"]
         | None => []
         end)%list.
Proof.
  apply (finalize_commit_success PosixFS.remux PosixFS.move PosixFS.remove
           sample_mp4 "/tmp/out.tmp" "/media/holiday.mp4" (State sticky_fs [])).
  vm_compute. reflexivity.
Defined.

(** The removal after a successful remux fails on the protected temporary
    output: the failure is logged and [finalize] returns. *)
Example finalize_remux_success_removal_fails :
  PosixFS.finalize sample_mp4 "/tmp/out.tmp" "/media/holiday.mp4" (State sticky_fs []) =
    (Returned tt,
     State (PosixFS.Fs {["/media/holiday.mp4"; "/tmp/out.tmp"]} {["/tmp/out.tmp"]})
       [LogDebug "generic mp4 format detected.  Running qtfaststart...";
        CallProcess "/tmp/out.tmp" "/media/holiday.mp4";
        CallRemove "/tmp/out.tmp";
        LogError "finalize(): cannot remove stale file"]).
Proof. by vm_compute. Qed.

(** C2: the move of the sample Theora profile fails on a protected
    destination; the temporary output is then removed and [finalize]
    returns normally, so the caller never sees the failure. *)
Theorem finalize_swallows_commit_failure :
  commit_fails PosixFS.remux PosixFS.move sample_theora
    "/tmp/out.tmp" "/media/holiday.ogv" protected_fs = true /\
  PosixFS.finalize sample_theora "/tmp/out.tmp" "/media/holiday.ogv" (State protected_fs []) =
    (Returned tt,
     State (PosixFS.Fs ∅ {["/media/holiday.ogv"]})
       [CallMove "/tmp/out.tmp" "/media/holiday.ogv"; CallRemove "/tmp/out.tmp"]).
Proof. split; by vm_compute. Qed.

(** C3 (as stated, refuted): the sample MP4 profile marks the removal
    before the remux pass runs; the pass fails to open its missing input,
    the error leaves [finalize], and the removal is never attempted. *)
Lemma finalize_marked_removal_skipped :
  marks_removal PosixFS.move sample_mp4 "/tmp/out.tmp" "/media/holiday.mp4"
    finalized_fs = true /\
  finalize remux_open PosixFS.move PosixFS.remove sample_mp4
    "/tmp/out.tmp" "/media/holiday.mp4" (State finalized_fs []) =
    (Raised (EnvironmentError PosixFS.ENOENT),
     State finalized_fs
       [LogDebug "generic mp4 format detected.  Running qtfaststart...";
        CallProcess "/tmp/out.tmp" "/media/holiday.mp4"]) /\
  CallRemove "/tmp/out.tmp" ∉
    trace (finalize remux_open PosixFS.move PosixFS.remove sample_mp4
             "/tmp/out.tmp" "/media/holiday.mp4" (State finalized_fs [])).2.
Proof.
  split; [by vm_compute|]. split; [by vm_compute|].
  intros H. vm_compute in H.
  repeat (apply elem_of_cons in H as [H | H]; [discriminate H |]).
  by apply elem_of_nil in H.
Qed.

Lemma finalize_removal_failure_keeps_original_witness :
  (exists e w calls,
      wants_remux sample_theora = true /\
      PosixFS.remux "/tmp/out.tmp" "/media/holiday.ogv" locked_fs = (Some e, w) /\
      is_FastStartException e = false /\
      PosixFS.finalize sample_theora "/tmp/out.tmp" "/media/holiday.ogv" (State locked_fs [])
      = (Raised e, State w ([] ++ calls)) /\
      forall p, CallRemove p ∉ calls) \/
  (exists err st1,
      commit PosixFS.remux PosixFS.move sample_theora "/tmp/out.tmp" "/media/holiday.ogv"
        (State locked_fs []) = (Returned (err, true), st1) /\
      (exists r st' rest,
          PosixFS.finalize sample_theora "/tmp/out.tmp" "/media/holiday.ogv"
            (State locked_fs []) = (r, st') /\
          extends st1 st' (CallRemove "/tmp/out.tmp" :: rest)) /\
      (forall e msg w,
          err = Some e -> PosixFS.remove "/tmp/out.tmp" (world st1) = (Some msg, w) ->
          (PosixFS.finalize sample_theora "/tmp/out.tmp" "/media/holiday.ogv"
             (State locked_fs [])).1 = Raised e)).
Proof.
  apply (finalize_removal_failure_keeps_original
           PosixFS.remux PosixFS.move PosixFS.remove
           sample_theora "/tmp/out.tmp" "/media/holiday.ogv" (State locked_fs [])).
  vm_compute. reflexivity.
Defined.

(** The move of the sample Theora profile fails on the protected
    destination, the removal of the protected temporary output fails as
    well, and [finalize] raises the error of the move. *)
Example finalize_raises_move_error :
  PosixFS.remove "/tmp/out.tmp" locked_fs = (Some PosixFS.EPERM, locked_fs) /\
  (PosixFS.finalize sample_theora "/tmp/out.tmp" "/media/holiday.ogv" (State locked_fs [])).1 =
    Raised (EnvironmentError PosixFS.EACCES).
Proof. split; by vm_compute. Qed.

(** A path that does not exist can be neither moved nor removed. *)
Lemma move_missing t o w :
  t ∉ PosixFS.files w -> PosixFS.move t o w = (Some PosixFS.ENOENT, w).
Proof. intros H. unfold PosixFS.move. by rewrite bool_decide_eq_false_2. Qed.

Lemma remove_missing t w :
  t ∉ PosixFS.files w -> PosixFS.remove t w = (Some PosixFS.ENOENT, w).
Proof. intros H. unfold PosixFS.remove. by rewrite bool_decide_eq_false_2. Qed.

(** A move that succeeds takes the source away, unless it moves a path
    onto itself. *)
Lemma move_consumes t o w w' :
  t ≠ o -> PosixFS.move t o w = (None, w') -> t ∉ PosixFS.files w'.
Proof.
  intros Hne. unfold PosixFS.move.
  repeat case_bool_decide; intros [= <-]; cbn.
  rewrite elem_of_union, elem_of_singleton, elem_of_difference, elem_of_singleton.
  intros [Heq | [_ Hn]]; [by apply Hne | by apply Hn].
Qed.

(** C4 (as stated, refuted): the first [finalize] of the sample Theora
    profile succeeds and consumes the temporary output; the second one,
    with the same paths, raises the error of its failed move. *)
Lemma finalize_twice_raises :
  (PosixFS.finalize sample_theora "/tmp/out.tmp" "/media/holiday.ogv"
     (State sample_fs [])).1 = Returned tt /\
  bool_decide ("/tmp/out.tmp" ∈ PosixFS.files (world
    (PosixFS.finalize sample_theora "/tmp/out.tmp" "/media/holiday.ogv"
       (State sample_fs [])).2)) = false /\
  (PosixFS.finalize sample_theora "/tmp/out.tmp" "/media/holiday.ogv"
     (PosixFS.finalize sample_theora "/tmp/out.tmp" "/media/holiday.ogv"
        (State sample_fs [])).2).1 = Raised (EnvironmentError PosixFS.ENOENT).
Proof. repeat split; by vm_compute. Qed.

(** C4 (amended): a call of [finalize] whose temporary output no longer
    exists, as after a successful first call.  A profile that commits by a
    move raises the move's error: the move of the missing path fails, its
    removal is attempted and fails as well, both failures are logged and
    the error of the move is raised.  For a profile that commits by the
    remux pass, the call does what the pass does on its missing input: an
    exception outside [FastStartException] leaves [finalize] at once and no
    removal is attempted; a [FastStartException] is replaced by the error
    [qtfaststart exception], which is raised after the removal of the path,
    if it is still missing, has failed; and if the pass returned, so would
    [finalize]. *)
Theorem finalize_missing_temp_raises
    (process : string -> string -> PosixFS.fs -> option exn * PosixFS.fs)
    self t o w tr :
  t ∉ PosixFS.files w ->
  (wants_remux self = false ->
   finalize process PosixFS.move PosixFS.remove self t o (State w tr) =
     (Raised (EnvironmentError PosixFS.ENOENT),
      State w (tr ++ [CallMove t o; CallRemove t;
                      LogError "finalize(): cannot remove stale file";
                      LogError "finalize(): removal was in response to error"]))) /\
  (wants_remux self = true ->
   match process t o w with
   | (Some e, w') =>
       if is_FastStartException e then
         t ∉ PosixFS.files w' ->
         finalize process PosixFS.move PosixFS.remove self t o (State w tr) =
           (Raised (EnvironmentError "qtfaststart exception"),
            State w' (tr ++ [LogDebug "generic mp4 format detected.  Running qtfaststart...";
                             CallProcess t o;
                             LogException "qtfaststart: exception occurred";
                             CallRemove t;
                             LogError "finalize(): cannot remove stale file";
                             LogError "finalize(): removal was in response to error"]))
       else
         finalize process PosixFS.move PosixFS.remove self t o (State w tr) =
           (Raised e,
            State w' (tr ++ [LogDebug "generic mp4 format detected.  Running qtfaststart...";
                             CallProcess t o]))
   | (None, w') =>
       (finalize process PosixFS.move PosixFS.remove self t o (State w tr)).1 = Returned tt
   end).
Proof.
  intros Hmiss. unfold finalize, commit, cleanup, record. split; intros ->; cbn.
  - rewrite (move_missing _ _ _ Hmiss). cbn.
    rewrite (remove_missing _ _ Hmiss). cbn.
    by rewrite <- !app_assoc.
  - destruct (process t o w) as [[e|] w']; cbn.
    + destruct e; cbn; try (by rewrite <- ?app_assoc).
      intros Hmiss'. rewrite (remove_missing _ _ Hmiss'). cbn.
      by rewrite <- !app_assoc.
    + by destruct (PosixFS.remove t w') as [[msg|] w2].
Qed.

Lemma finalize_missing_temp_raises_witness :
  PosixFS.finalize sample_theora "/tmp/out.tmp" "/media/holiday.ogv"
    (State (PosixFS.Fs {["/media/holiday.ogv"]} ∅) []) =
    (Raised (EnvironmentError PosixFS.ENOENT),
     State (PosixFS.Fs {["/media/holiday.ogv"]} ∅)
       [CallMove "/tmp/out.tmp" "/media/holiday.ogv"; CallRemove "/tmp/out.tmp";
        LogError "finalize(): cannot remove stale file";
        LogError "finalize(): removal was in response to error"]).
Proof.
  apply (proj1 (finalize_missing_temp_raises PosixFS.remux sample_theora
                  "/tmp/out.tmp" "/media/holiday.ogv"
                  (PosixFS.Fs {["/media/holiday.ogv"]} ∅) []
                  ltac:(compute_done))).
  reflexivity.
Defined.

(** The second call on the sample MP4 profile, for a remux pass that
    reports the missing input by its own exception and for one that fails
    to open it. *)
Example finalize_twice_remux :
  (PosixFS.finalize sample_mp4 "/tmp/out.tmp" "/media/holiday.mp4"
     (State finalized_fs [])).1 = Raised (EnvironmentError "qtfaststart exception") /\
  (finalize remux_open PosixFS.move PosixFS.remove sample_mp4
     "/tmp/out.tmp" "/media/holiday.mp4" (State finalized_fs [])).1 =
    Raised (EnvironmentError PosixFS.ENOENT).
Proof. split; by vm_compute. Qed.

(** ** The registry *)

(** C9: when two profiles have names that normalize to the same
    identifier, adding one and then the other leaves the later one under
    that identifier, and nothing of the earlier one: the registry is the
    one that adding the later profile alone gives, and exactly one entry
    is keyed by the identifier. *)
Theorem add_converter_collision (self : ConverterManager)
    a1 mt1 br1 ext1 n1 a2 mt2 br2 ext2 n2 :
  PyStr.lower (NON_WORD_CHARS_sub n1) = PyStr.lower (NON_WORD_CHARS_sub n2) ->
  get_by_id (PyStr.lower (NON_WORD_CHARS_sub n1))
    (add_converter (ConverterInfo_init a2 mt2 br2 ext2 n2)
       (add_converter (ConverterInfo_init a1 mt1 br1 ext1 n1) self))
  = Some (ConverterInfo_init a2 mt2 br2 ext2 n2) /\
  add_converter (ConverterInfo_init a2 mt2 br2 ext2 n2)
    (add_converter (ConverterInfo_init a1 mt1 br1 ext1 n1) self)
  = add_converter (ConverterInfo_init a2 mt2 br2 ext2 n2) self /\
  filter (fun kv => kv.1 = PyStr.lower (NON_WORD_CHARS_sub n1))
    (map_to_list (converters
       (add_converter (ConverterInfo_init a2 mt2 br2 ext2 n2)
          (add_converter (ConverterInfo_init a1 mt1 br1 ext1 n1) self))))
  = [(PyStr.lower (NON_WORD_CHARS_sub n1), ConverterInfo_init a2 mt2 br2 ext2 n2)].
Proof.
  intros Hid.
  set (p1 := ConverterInfo_init a1 mt1 br1 ext1 n1).
  set (p2 := ConverterInfo_init a2 mt2 br2 ext2 n2).
  assert (H2 : identifier p2 = identifier p1) by (symmetry; exact Hid).
  unfold get_by_id, add_converter. cbn [converters brand_rmap brand_map].
  change (PyStr.lower (NON_WORD_CHARS_sub n1)) with (identifier p1).
  rewrite H2. generalize (identifier p1). intros i.
  rewrite insert_insert_eq.
  split; [apply lookup_insert_eq|]. split; [done|].
  rewrite <- insert_delete_eq.
  assert (Hperm : map_to_list (<[i:=p2]> (delete i (converters self)))
                  ≡ₚ (i, p2) :: map_to_list (delete i (converters self))).
  { apply map_to_list_insert, lookup_delete_eq. }
  apply Permutation_singleton_r. rewrite Hperm.
  rewrite filter_cons_True by done.
  assert (Hnone : filter (fun kv : string * ConverterInfo => kv.1 = i)
                    (map_to_list (delete i (converters self))) = []).
  { destruct (filter _ _) as [|[k v] l] eqn:E; [done|].
    assert (Hin : (k, v) ∈ (k, v) :: l) by apply list_elem_of_here.
    rewrite <- E in Hin. apply list_elem_of_filter in Hin as [Hk Hin].
    cbn in Hk. subst k.
    apply elem_of_map_to_list in Hin. by rewrite lookup_delete_eq in Hin. }
  by rewrite Hnone.
Qed.

Lemma add_converter_collision_witness :
  get_by_id "oggtheora"
    (add_converter (ConverterInfo_init 2 (Some "format") None (Some "ogv") "OGG-Theora!")
       (add_converter (ConverterInfo_init 1 (Some "format") None (Some "ogv") "Ogg Theora")
          ConverterManager_init))
  = Some (ConverterInfo_init 2 (Some "format") None (Some "ogv") "OGG-Theora!").
Proof.
  apply (add_converter_collision ConverterManager_init
           1 (Some "format") None (Some "ogv") "Ogg Theora"
           2 (Some "format") None (Some "ogv") "OGG-Theora!").
  reflexivity.
Defined.

(** *** Brands *)

Lemma init_unbranded c : unbranded c ConverterManager_init.
Proof.
  split; cbn; [apply lookup_empty|].
  intros b l c' H. by rewrite lookup_empty in H.
Qed.

Lemma add_converter_unbranded c c' r :
  unbranded c r -> unbranded c (add_converter c' r).
Proof. done. Qed.

Lemma register_unbranded c b c' r :
  addr c' ≠ addr c -> unbranded c r -> unbranded c (register b c' r).
Proof.
  intros Hne [Hr Hm]. split; cbn.
  - by rewrite lookup_insert_ne.
  - intros b0 l c0. destruct (decide (b = b0)) as [<-|Hb].
    + rewrite lookup_insert_eq. intros [= <-] Hin.
      apply elem_of_app in Hin as [Hin|Hin].
      * destruct (brand_map r !! b) as [old|] eqn:E; cbn in Hin.
        -- by eapply Hm.
        -- by apply elem_of_nil in Hin.
      * apply list_elem_of_singleton in Hin. by subst c0.
    + rewrite lookup_insert_ne by done. apply Hm.
Qed.

Lemma register_all_unbranded c b cs : forall r,
  (forall c', c' ∈ cs -> addr c' ≠ addr c) ->
  unbranded c r ->
  unbranded c (foldl (fun r c' => register b c' r) r cs).
Proof.
  induction cs as [|c1 cs IH]; intros r Hcs Hr; cbn; [done|].
  apply IH.
  - intros c' Hin. apply Hcs. by right.
  - apply register_unbranded; [|done]. apply Hcs. by left.
Qed.

Lemma load_entry_unbranded c e r :
  (forall c', c' ∈ entry_converters e -> addr c' ≠ addr c) ->
  unbranded c r -> unbranded c (load_entry r e).
Proof.
  destruct e as [c1|b cs]; cbn; intros He Hr.
  - apply register_unbranded; [|done]. apply He, list_elem_of_here.
  - by apply register_all_unbranded.
Qed.

Lemma load_entries_unbranded c es : forall r,
  (forall c', c' ∈ es ≫= entry_converters -> addr c' ≠ addr c) ->
  unbranded c r -> unbranded c (foldl load_entry r es).
Proof.
  induction es as [|e es IH]; intros r Hes Hr; cbn; [done|].
  apply IH.
  - intros c' Hin. apply Hes. cbn. apply elem_of_app. by right.
  - apply load_entry_unbranded; [|done].
    intros c' Hin. apply Hes. cbn. apply elem_of_app. by left.
Qed.

Lemma load_converters_unbranded c units : forall r,
  (forall c', c' ∈ units ≫= (fun u => default [] u ≫= entry_converters) ->
              addr c' ≠ addr c) ->
  unbranded c r -> unbranded c (load_converters units r).
Proof.
  unfold load_converters.
  induction units as [|u units IH]; intros r Hus Hr; cbn; [done|].
  apply IH.
  - intros c' Hin. apply Hus. cbn. apply elem_of_app. by right.
  - destruct u as [es|]; [|done].
    apply load_entries_unbranded; [|done].
    intros c' Hin. apply Hus. cbn. apply elem_of_app. by left.
Qed.

Lemma step_unbranded c o r :
  (forall c', c' ∈ op_loaded o -> addr c' ≠ addr c) ->
  unbranded c r -> unbranded c (step r o).
Proof.
  destruct o as [c1|basic|units]; cbn; intros Ho Hr.
  - by apply add_converter_unbranded.
  - by apply load_entries_unbranded.
  - by apply load_converters_unbranded.
Qed.

Lemma run_unbranded c ops : forall r,
  (forall c', c' ∈ loaded ops -> addr c' ≠ addr c) ->
  unbranded c r -> unbranded c (run ops r).
Proof.
  unfold run, loaded.
  induction ops as [|o ops IH]; intros r Hops Hr; cbn; [done|].
  apply IH.
  - intros c' Hin. apply Hops. cbn. apply elem_of_app. by right.
  - apply step_unbranded; [|done].
    intros c' Hin. apply Hops. cbn. apply elem_of_app. by left.
Qed.

(** C10: [add_converter] leaves [brand_map] and [brand_rmap] as they are,
    in every registry.  Hence, in a registry built from [__init__] by any
    sequence of calls in which a profile is never handed to a brand-aware
    loader -- it is registered through [add_converter] only --
    [converter_to_brand] returns [None] for it and no brand group holds
    it.  A profile loaded as a bare, unbranded entry gets the same
    [None]. *)
Theorem add_converter_frame :
  (forall c r,
      brand_map (add_converter c r) = brand_map r /\
      brand_rmap (add_converter c r) = brand_rmap r) /\
  (forall ops c,
      (forall c', c' ∈ loaded ops -> addr c' ≠ addr c) ->
      converter_to_brand c (run ops ConverterManager_init) = None /\
      forall b l c',
        brand_to_converters b (run ops ConverterManager_init) = Some l ->
        c' ∈ l -> addr c' ≠ addr c) /\
  (forall c r, converter_to_brand c (load_entry r (Bare c)) = None).
Proof.
  split; [done|]. split.
  - intros ops c Hops.
    destruct (run_unbranded c ops ConverterManager_init Hops (init_unbranded c))
      as [Hr Hm].
    split; [|exact Hm].
    unfold converter_to_brand. by rewrite Hr.
  - intros c r. unfold converter_to_brand. cbn. by rewrite lookup_insert_eq.
Qed.

Lemma add_converter_frame_witness :
  converter_to_brand sample_mp4
    (run [LoadSimple [Grouped "Xiph" [sample_theora]]; AddConverter sample_mp4]
       ConverterManager_init) = None.
Proof.
  apply (proj1 (proj2 add_converter_frame)
           [LoadSimple [Grouped "Xiph" [sample_theora]]; AddConverter sample_mp4]
           sample_mp4).
  intros c' Hin. apply list_elem_of_singleton in Hin. subst c'. cbn. lia.
Defined.

(** ** Output file names *)

Lemma substring_prefix (pre s : string) :
  substring 0 (String.length pre) (pre ++ s) = pre.
Proof.
  induction pre as [|c pre IH]; simpl.
  - by destruct s.
  - by rewrite IH.
Qed.

Lemma substring_all (s : string) : substring 0 (String.length s) s = s.
Proof. induction s as [|c s IH]; simpl; [done | by rewrite IH]. Qed.

Lemma substring_suffix (pre s : string) :
  substring (String.length pre) (String.length (pre ++ s) - String.length pre) (pre ++ s) = s.
Proof.
  induction pre as [|c pre IH]; simpl.
  - rewrite Nat.sub_0_r. apply substring_all.
  - exact IH.
Qed.

Lemma slice_to_app (pre s : string) :
  PyStr.slice_to (Z.of_nat (String.length pre)) (pre ++ s) = pre.
Proof. unfold PyStr.slice_to. rewrite Nat2Z.id. apply substring_prefix. Qed.

Lemma slice_from_app (pre s : string) :
  PyStr.slice_from (Z.of_nat (String.length pre)) (pre ++ s) = s.
Proof. unfold PyStr.slice_from. rewrite Nat2Z.id. apply substring_suffix. Qed.

(** [rfind] returns [-1] when the character is absent, and otherwise the
    index after which it does not occur again. *)
Lemma rfind_from_spec (c : ascii) (s : string) : forall i last,
  (PyStr.contains c s = false /\ PyStr.rfind_from c s i last = last) \/
  (exists pre x,
      s = pre ++ String c x /\ PyStr.contains c x = false /\
      PyStr.rfind_from c s i last = i + Z.of_nat (String.length pre)).
Proof.
  induction s as [|b s IH]; intros i last; cbn; [by left|].
  destruct (IH (i + 1) (if Ascii.eqb b c then i else last))
    as [[Hno Hr] | (pre & x & -> & Hno & Hr)].
  - rewrite Hr, Hno, (Ascii.eqb_sym c b).
    destruct (Ascii.eqb b c) eqn:E.
    + right. apply Ascii.eqb_eq in E as ->. exists EmptyString, s. cbn.
      split; [done|]. split; [done | lia].
    + by left.
  - right. exists (String b pre), x. cbn.
    split; [done|]. split; [done|]. rewrite Hr. lia.
Qed.

Lemma rfind_spec (c : ascii) (s : string) :
  (PyStr.contains c s = false /\ PyStr.rfind c s = -1) \/
  (exists pre x,
      s = pre ++ String c x /\ PyStr.contains c x = false /\
      PyStr.rfind c s = Z.of_nat (String.length pre)).
Proof. apply (rfind_from_spec c s 0 (-1)). Qed.

(** [splitext] cuts a path in two without changing it; the extension is
    empty or starts at the last dot. *)
Lemma splitext_spec (p : string) :
  (PosixPath.splitext p = (p, EmptyString)) \/
  (exists stem x,
      PosixPath.splitext p = (stem, String "." x) /\
      p = stem ++ String "." x /\ PyStr.contains "." x = false).
Proof.
  unfold PosixPath.splitext.
  destruct (rfind_spec "." p) as [[_ ->] | (pre & x & Hp & Hno & ->)].
  - destruct (rfind_spec "/" p) as [[_ ->] | (pre' & x' & _ & _ & ->)];
      left; [done|].
    replace (_ <? -1) with false by (symmetry; apply Z.ltb_ge; lia). done.
  - destruct (_ && _); [|by left].
    right. exists pre, x. rewrite Hp at 1 2.
    by rewrite slice_to_app, slice_from_app.
Qed.

(** C8: the output file name is the stem of the source's base name, then
    one [.<identifier>.] segment, then an extension: the profile's
    [extension] when it is set (neither [None] nor empty, which is how the
    code tests it), and otherwise the source's own extension without its
    leading dot.  The stem is the base name up to its extension,
    unchanged. *)
Theorem get_output_filename_shape (self : ConverterInfo) (video : Video) :
  exists stem ext : string,
    (PosixPath.splitext (PosixPath.basename (filename video))).1 = stem /\
    (PosixPath.basename (filename video) = stem /\ ext = EmptyString \/
     PosixPath.basename (filename video) = stem ++ "." ++ ext /\
     PyStr.contains "." ext = false) /\
    get_output_filename self video =
      stem ++ "." ++ identifier self ++ "." ++
      match extension self with
      | Some (String c e) => String c e
      | _ => ext
      end.
Proof.
  unfold get_output_filename.
  destruct (splitext_spec (PosixPath.basename (filename video)))
    as [-> | (stem & x & -> & Hb & Hno)].
  - exists (PosixPath.basename (filename video)), EmptyString.
    split; [done|]. split; [by left|].
    by destruct (extension self) as [[|c e]|].
  - exists stem, x. split; [done|]. split; [by right|].
    by destruct (extension self) as [[|c e]|].
Qed.

(** ** The matcher *)

Lemma strip_prefix_app (l s : string) : PyStr.strip_prefix l (l ++ s) = Some s.
Proof.
  induction l as [|c l IH]; simpl; [done|].
  by rewrite Ascii.eqb_refl.
Qed.

Lemma strip_prefix_inv (l s s' : string) :
  PyStr.strip_prefix l s = Some s' -> s = l ++ s'.
Proof.
  revert s. induction l as [|c l IH]; intros s; simpl.
  - by intros [= ->].
  - destruct s as [|d s]; [done|].
    destruct (Ascii.eqb c d) eqn:E; [|done].
    apply Ascii.eqb_eq in E as ->. intros H. by rewrite (IH _ H).
Qed.

Lemma startswith_truthy (c : ascii) (l s : string) :
  PyStr.startswith (String c l) s = true -> PyStr.truthy s = true.
Proof. by destruct s. Qed.

Lemma rmatch_Cat {A} r1 r2 s caps (k : string -> Re.captures -> option A) :
  Re.rmatch (Re.Cat r1 r2) s caps k =
  Re.rmatch r1 s caps (fun s' caps' => Re.rmatch r2 s' caps' k).
Proof. done. Qed.

Lemma rmatch_Lit {A} l s caps (k : string -> Re.captures -> option A) :
  Re.rmatch (Re.Lit l) (l ++ s) caps k = k s caps.
Proof. simpl. by rewrite strip_prefix_app. Qed.

Lemma rmatch_Lit_inv {A} l r s caps (k : string -> Re.captures -> option A) x :
  Re.rmatch (Re.Cat (Re.Lit l) r) s caps k = Some x -> exists s', s = l ++ s'.
Proof.
  simpl. destruct (PyStr.strip_prefix l s) as [s'|] eqn:E; [|done].
  intros _. exists s'. by apply strip_prefix_inv.
Qed.

Lemma consumed_two (a b : ascii) (s : string) :
  Re.consumed (two_digits a b ++ s) s = two_digits a b.
Proof.
  change (two_digits a b ++ s) with (String a (String b s)).
  unfold Re.consumed. simpl String.length.
  replace (S (S (String.length s)) - String.length s)%nat with 2%nat by lia.
  by destruct s.
Qed.

Lemma rmatch_Group_digit2 {A} n a b s caps (k : string -> Re.captures -> option A) :
  PyStr.is_digit a = true -> PyStr.is_digit b = true ->
  Re.rmatch (Re.Group n digit2) (two_digits a b ++ s) caps k =
  k s (<[n := Some (two_digits a b)]> caps).
Proof.
  intros Ha Hb. rewrite <- (consumed_two a b s) at 2.
  change (two_digits a b ++ s) with (String a (String b s)).
  simpl. by rewrite Ha, Hb.
Qed.

(** Over a continuation that always succeeds, the greedy star succeeds,
    with a result of that continuation. *)
Lemma star_greedy_total {A} p s (k : string -> option A) (R : A -> Prop) :
  (forall s', exists r, k s' = Some r /\ R r) ->
  exists r, Re.star_greedy p s k = Some r /\ R r.
Proof.
  intros Hk. induction s as [|c s IH]; simpl; [apply Hk|].
  destruct (p c); [|apply Hk].
  destruct IH as (r & -> & Hr). eauto.
Qed.

(** The greedy star takes a whole run of the class when the continuation
    accepts what follows it. *)
Lemma star_greedy_run {A} p w s (k : string -> option A) r :
  PyStr.forallb p w = true -> k s = Some r ->
  match s with String c _ => p c = false | EmptyString => True end ->
  Re.star_greedy p (w ++ s) k = Some r.
Proof.
  intros Hw Hk Hs. induction w as [|c w IH]; simpl.
  - destruct s as [|c s]; simpl; [done|]. by rewrite Hs.
  - simpl in Hw. apply andb_prop in Hw as [-> Hw]. by rewrite (IH Hw).
Qed.

(** An optional trailing group, a literal followed by any text, never
    makes a match fail. *)
Lemma rmatch_Opt_tail {A} n l s caps (k : string -> Re.captures -> option A)
    (P : Re.captures -> Prop) (R : A -> Prop) :
  (forall s' caps', P caps' -> exists r, k s' caps' = Some r /\ R r) ->
  (forall x caps', P caps' -> P (<[n := x]> caps')) ->
  P caps ->
  exists r,
    Re.rmatch (Re.Opt (Re.Group n (Re.Cat (Re.Lit l) any))) s caps k = Some r /\ R r.
Proof.
  intros Hk Hins Hcaps. simpl.
  destruct (PyStr.strip_prefix l s) as [s1|]; [|by apply Hk].
  destruct (star_greedy_total PyStr.is_dot s1
              (fun s' => k s' (<[n := Some (Re.consumed s s')]> caps)) R)
    as (r & -> & Hr); [|by eauto].
  intros s'. by apply Hk, Hins.
Qed.

Lemma duration_groups_insert hh mm ss cc n x m :
  n ∉ [1; 2; 3; 4]%nat ->
  duration_groups hh mm ss cc m -> duration_groups hh mm ss cc (<[n := x]> m).
Proof.
  intros Hn (Hl & H1 & H2 & H3 & H4). unfold duration_groups.
  rewrite length_insert.
  rewrite !list_lookup_insert_ne; [done | | | |];
    intros ->; apply Hn; set_solver.
Qed.

Lemma duration_groups_take hh mm ss cc m :
  duration_groups hh mm ss cc m ->
  take 4 (Re.groups m) = [Some hh; Some mm; Some ss; Some cc].
Proof.
  intros (Hl & H1 & H2 & H3 & H4). unfold Re.groups.
  do 8 (destruct m as [|? m]; try discriminate Hl).
  simpl in *. congruence.
Qed.

(** ** Numbers *)

Lemma is_digit_inv (a : ascii) :
  PyStr.is_digit a = true ->
  In a ["0"; "1"; "2"; "3"; "4"; "5"; "6"; "7"; "8"; "9"]%char.
Proof.
  destruct a as [[] [] [] [] [] [] [] []]; intros H;
    solve [discriminate H | simpl; tauto].
Qed.

(** [int] reads a two-digit field as the number it spells. *)
Lemma int_of_two_digits (a b : ascii) :
  PyStr.is_digit a = true -> PyStr.is_digit b = true ->
  PyNum.py_int (Some (two_digits a b)) = Returned (value2 a b).
Proof.
  intros Ha%is_digit_inv Hb%is_digit_inv. simpl in Ha, Hb.
  repeat (destruct Ha as [<- | Ha]; [|]); try contradiction;
    repeat (destruct Hb as [<- | Hb]; [|]); try contradiction;
    reflexivity.
Qed.

(** A character outside [\w] is no letter. *)
Lemma nonword_not_letter (c d : ascii) :
  PyStr.is_nonword c = true -> PyStr.is_word d = true -> Ascii.eqb d c = false.
Proof.
  intros Hc Hd. destruct (Ascii.eqb d c) eqn:E; [|done].
  apply Ascii.eqb_eq in E as ->. unfold PyStr.is_nonword in Hc.
  by rewrite Hd in Hc.
Qed.

(** ** The diagnostic-line classifier *)

Lemma rmatch_Group {A} n r s caps (k : string -> Re.captures -> option A) :
  Re.rmatch (Re.Group n r) s caps k =
  Re.rmatch r s caps (fun s' caps' => k s' (<[n := Some (Re.consumed s s')]> caps')).
Proof. done. Qed.

Lemma rmatch_Star {A} p s caps (k : string -> Re.captures -> option A) :
  Re.rmatch (Re.Star p) s caps k = Re.star_greedy p s (fun s' => k s' caps).
Proof. done. Qed.

(** A line whose first character is neither [U] nor [E] passes the error
    check. *)
Lemma check_for_errors_first (c : ascii) (s : string) :
  Ascii.eqb "U" c = false -> Ascii.eqb "E" c = false ->
  _check_for_errors (String c s) = None.
Proof.
  intros HU HE. unfold _check_for_errors, PyStr.startswith.
  cbn [PyStr.strip_prefix]. by rewrite HU, HE.
Qed.

Section Duration.

Variables (h1 h2 m1 m2 s1 s2 c1 c2 : ascii) (rest : string).
Hypothesis digits :
  PyStr.forallb PyStr.is_digit
    (two_digits h1 h2 ++ two_digits m1 m2 ++ two_digits s1 s2 ++ two_digits c1 c2) = true.

Lemma digits_inv :
  (PyStr.is_digit h1 = true /\ PyStr.is_digit h2 = true) /\
  (PyStr.is_digit m1 = true /\ PyStr.is_digit m2 = true) /\
  (PyStr.is_digit s1 = true /\ PyStr.is_digit s2 = true) /\
  (PyStr.is_digit c1 = true /\ PyStr.is_digit c2 = true).
Proof.
  pose proof digits as H.
  change (PyStr.is_digit h1 && (PyStr.is_digit h2 && (PyStr.is_digit m1 &&
          (PyStr.is_digit m2 && (PyStr.is_digit s1 && (PyStr.is_digit s2 &&
          (PyStr.is_digit c1 && (PyStr.is_digit c2 && true))))))) = true) in H.
  repeat (apply andb_prop in H as [? H]). done.
Qed.

(** The pattern after its leading [\W*] matches the text, and hands the
    four fields to whatever follows. *)
Lemma duration_body {A} (k : string -> Re.captures -> option A) (R : A -> Prop) :
  (forall s' caps',
      duration_groups (two_digits h1 h2) (two_digits m1 m2)
                      (two_digits s1 s2) (two_digits c1 c2) caps' ->
      exists r, k s' caps' = Some r /\ R r) ->
  exists r,
    Re.rmatch
      (Re.cat [Re.Lit "Duration: ";
               Re.Group 1 digit2; Re.Lit ":"; Re.Group 2 digit2; Re.Lit ":";
               Re.Group 3 digit2; Re.Lit "."; Re.Group 4 digit2;
               Re.Opt (Re.Group 5 (Re.Cat (Re.Lit ", start:") any));
               Re.Opt (Re.Group 6 (Re.Cat (Re.Lit ", bitrate:") any))])
      (duration_text h1 h2 m1 m2 s1 s2 c1 c2 rest) (replicate 7 None) k = Some r /\ R r.
Proof.
  intros Hk.
  destruct digits_inv as ((Hh1 & Hh2) & (Hm1 & Hm2) & (Hs1 & Hs2) & (Hc1 & Hc2)).
  unfold duration_text. cbn [Re.cat].
  rewrite rmatch_Cat, rmatch_Lit. cbv beta.
  rewrite rmatch_Cat, rmatch_Group_digit2 by done. cbv beta.
  rewrite rmatch_Cat, rmatch_Lit. cbv beta.
  rewrite rmatch_Cat, rmatch_Group_digit2 by done. cbv beta.
  rewrite rmatch_Cat, rmatch_Lit. cbv beta.
  rewrite rmatch_Cat, rmatch_Group_digit2 by done. cbv beta.
  rewrite rmatch_Cat, rmatch_Lit. cbv beta.
  rewrite rmatch_Cat, rmatch_Group_digit2 by done. cbv beta.
  rewrite rmatch_Cat.
  set (P := duration_groups (two_digits h1 h2) (two_digits m1 m2)
                             (two_digits s1 s2) (two_digits c1 c2)) in *.
  assert (Hins : forall n, n ∉ [1; 2; 3; 4]%nat ->
            forall x caps', P caps' -> P (<[n := x]> caps')).
  { intros n Hn x caps'. by apply duration_groups_insert. }
  apply rmatch_Opt_tail with (P := P).
  - intros s' caps' Hcaps'.
    apply rmatch_Opt_tail with (P := P);
      [exact Hk | apply Hins; compute_done | exact Hcaps'].
  - apply Hins. compute_done.
  - repeat split.
Qed.

End Duration.

(** The duration pattern matches a duration line and captures its four
    fields. *)
Lemma duration_match (w : string) (h1 h2 m1 m2 s1 s2 c1 c2 : ascii) (rest : string) :
  PyStr.forallb PyStr.is_nonword w = true ->
  PyStr.forallb PyStr.is_digit
    (two_digits h1 h2 ++ two_digits m1 m2 ++ two_digits s1 s2 ++ two_digits c1 c2) = true ->
  exists m,
    Re.re_match (DURATION_RE FFmpegConverterInfoBase)
      (w ++ duration_text h1 h2 m1 m2 s1 s2 c1 c2 rest) = Some m /\
    duration_groups (two_digits h1 h2) (two_digits m1 m2)
                    (two_digits s1 s2) (two_digits c1 c2) m.
Proof.
  intros Hw Hd. unfold Re.re_match.
  cbn [DURATION_RE FFmpegConverterInfoBase Re.pat_re Re.pat_groups].
  change (Re.cat (Re.Star PyStr.is_nonword :: ?l))
    with (Re.Cat (Re.Star PyStr.is_nonword) (Re.cat l)).
  rewrite rmatch_Group, rmatch_Cat, rmatch_Star.
  set (line := w ++ duration_text h1 h2 m1 m2 s1 s2 c1 c2 rest).
  destruct (duration_body h1 h2 m1 m2 s1 s2 c1 c2 rest Hd
              (fun s' caps' => Some (<[0%nat := Some (Re.consumed line s')]> caps'))
              (duration_groups (two_digits h1 h2) (two_digits m1 m2)
                               (two_digits s1 s2) (two_digits c1 c2)))
    as (m & Hm & Hg).
  { intros s' caps' Hcaps'. eexists. split; [reflexivity|].
    apply duration_groups_insert; [compute_done | done]. }
  exists m. split; [|done].
  by apply star_greedy_run.
Qed.

(** A duration line passes the error check. *)
Lemma duration_line_passes (w : string) (h1 h2 m1 m2 s1 s2 c1 c2 : ascii) (rest : string) :
  PyStr.forallb PyStr.is_nonword w = true ->
  _check_for_errors (w ++ duration_text h1 h2 m1 m2 s1 s2 c1 c2 rest) = None.
Proof.
  intros Hw. destruct w as [|c w].
  - reflexivity.
  - simpl in Hw. apply andb_prop in Hw as [Hc _].
    change (String c w ++ ?s) with (String c (w ++ s)).
    apply check_for_errors_first; by apply nonword_not_letter.
Qed.

(** Two lists of values of two functions agree only if the functions
    agree on every element. *)
Lemma map_eq_In {A B : Type} (f g : A -> B) (l : list A) :
  List.map f l = List.map g l -> forall x, List.In x l -> f x = g x.
Proof.
  induction l as [|y l IH]; simpl; [done|].
  intros [= Hy Hl] x [<- | Hx]; [done | by apply IH].
Qed.

(** The integers of a duration line are far from the range of [float]:
    checked on every digit. *)
Lemma digit_floats_check :
  List.map (fun a => List.map (fun b =>
    (float_of_int (value2 a b),
     List.map (fun c => List.map (fun d =>
       float_of_int (value2 a b * 3600 + value2 c d * 60)) digit_chars) digit_chars))
    digit_chars) digit_chars
  = List.map (fun a => List.map (fun b =>
    (Returned (Z2F (value2 a b)),
     List.map (fun c => List.map (fun d =>
       Returned (Z2F (value2 a b * 3600 + value2 c d * 60))) digit_chars) digit_chars))
    digit_chars) digit_chars.
Proof. vm_compute. reflexivity. Qed.

Lemma float_of_int_digits (a b c d : ascii) :
  PyStr.is_digit a = true -> PyStr.is_digit b = true ->
  PyStr.is_digit c = true -> PyStr.is_digit d = true ->
  float_of_int (value2 a b) = Returned (Z2F (value2 a b)) /\
  float_of_int (value2 a b * 3600 + value2 c d * 60)
  = Returned (Z2F (value2 a b * 3600 + value2 c d * 60)).
Proof.
  intros Ha%is_digit_inv Hb%is_digit_inv Hc%is_digit_inv Hd%is_digit_inv.
  pose proof (map_eq_In _ _ _ (map_eq_In _ _ _ digit_floats_check a Ha) b Hb) as H.
  cbv beta in H. split; [exact (f_equal fst H)|].
  exact (map_eq_In _ _ _ (map_eq_In _ _ _ (f_equal snd H) c Hc) d Hd).
Qed.

(** On the groups of a duration line the duration branch returns: the
    whole hours and minutes are summed as integers, the hundredths are
    added to the seconds, and the two [float] sums are added last. *)
Lemma duration_event_value (h1 h2 m1 m2 s1 s2 c1 c2 : ascii) (m : Re.captures) :
  PyStr.forallb PyStr.is_digit
    (two_digits h1 h2 ++ two_digits m1 m2 ++ two_digits s1 s2 ++ two_digits c1 c2) = true ->
  duration_groups (two_digits h1 h2) (two_digits m1 m2)
                  (two_digits s1 s2) (two_digits c1 c2) m ->
  duration_event m =
    Returned (Some (EvDuration (PyFloat
      (Z2F (value2 h1 h2 * 3600 + value2 m1 m2 * 60) +
       (Z2F (value2 s1 s2) + 0.01 * Z2F (value2 c1 c2)))))).
Proof.
  intros Hd Hg.
  destruct (digits_inv h1 h2 m1 m2 s1 s2 c1 c2 Hd)
    as ((Hh1 & Hh2) & (Hm1 & Hm2) & (Hs1 & Hs2) & (Hc1 & Hc2)).
  unfold duration_event. rewrite (duration_groups_take _ _ _ _ _ Hg).
  cbn [for_each bind].
  rewrite !int_of_two_digits by done.
  cbn [bind py_mul py_add coerce hms_to_seconds].
  rewrite (proj1 (float_of_int_digits c1 c2 c1 c2 Hc1 Hc2 Hc1 Hc2)). cbn [bind].
  rewrite (proj1 (float_of_int_digits s1 s2 c1 c2 Hs1 Hs2 Hc1 Hc2)). cbn [bind].
  rewrite (proj2 (float_of_int_digits h1 h2 m1 m2 Hh1 Hh2 Hm1 Hm2)). cbn [bind].
  reflexivity.
Qed.

(** C6 (as stated, refuted): on [Duration: 00:01:08.04] the code adds the
    hundredths to the seconds first, [60 + (8 + 0.01*4)], and returns the
    [float] just below [68.04]; the formula of the specification,
    [0*3600 + 1*60 + 8 + 0.01*4], gives the [float] nearest to [68.04],
    which is also what [float] reads from that text. *)
Lemma duration_rounding_differs :
  process_status_line FFmpegConverterInfoBase sample_video "Duration: 00:01:08.04"
  = Returned (Some (EvDuration (PyFloat 68.039999999999992))) /\
  spec_duration 0 1 8 4 = Returned (PyFloat 68.040000000000006) /\
  PyNum.py_float "68.04" = Returned 68.040000000000006%float /\
  (68.039999999999992 <? 68.040000000000006)%float = true.
Proof. repeat split; vm_compute; reflexivity. Qed.

(** C6 (amended): a line that reads [Duration: HH:MM:SS.CC], after any
    non-word characters and before any trailing text, yields a duration
    event whose value is the [float] sum of the integer [HH*3600 + MM*60]
    and of [SS + 0.01*CC], the latter computed first, every operation
    rounded to the nearest [float]; the sample line of the specification
    yields 90.5. *)
Theorem process_status_line_duration :
  (forall video w h1 h2 m1 m2 s1 s2 c1 c2 rest,
      PyStr.forallb PyStr.is_nonword w = true ->
      PyStr.forallb PyStr.is_digit
        (two_digits h1 h2 ++ two_digits m1 m2 ++ two_digits s1 s2 ++ two_digits c1 c2)
        = true ->
      process_status_line FFmpegConverterInfoBase video
        (w ++ duration_text h1 h2 m1 m2 s1 s2 c1 c2 rest)
      = Returned (Some (EvDuration (PyFloat
          (Z2F (value2 h1 h2 * 3600 + value2 m1 m2 * 60) +
           (Z2F (value2 s1 s2) + 0.01 * Z2F (value2 c1 c2))))))) /\
  (forall video,
      process_status_line FFmpegConverterInfoBase video
        "Duration: 00:01:30.50, start: 0.000000, bitrate: 128 kb/s"
      = Returned (Some (EvDuration (PyFloat 90.5)))).
Proof.
  split.
  - intros video w h1 h2 m1 m2 s1 s2 c1 c2 rest Hw Hd.
    unfold process_status_line.
    rewrite (duration_line_passes w h1 h2 m1 m2 s1 s2 c1 c2 rest Hw).
    cbn [truthy].
    destruct (duration_match w h1 h2 m1 m2 s1 s2 c1 c2 rest Hw Hd) as (m & -> & Hg).
    by apply duration_event_value.
  - intros video. vm_compute. reflexivity.
Qed.

Lemma process_status_line_duration_witness :
  process_status_line FFmpegConverterInfoBase sample_video
    ("  " ++ duration_text "0" "1" "0" "2" "0" "3" "4" "5" ", start: 0.000000")
  = Returned (Some (EvDuration (PyFloat
      (Z2F (1 * 3600 + 2 * 60) + (Z2F 3 + 0.01 * Z2F 45))))).
Proof.
  exact (proj1 process_status_line_duration sample_video "  "
           "0"%char "1"%char "0"%char "2"%char "0"%char "3"%char "4"%char "5"%char
           ", start: 0.000000" eq_refl eq_refl).
Defined.

(** C5: the error check comes first.  A line that begins with [Unknown],
    or with [Error] but not with [Error while decoding stream], yields the
    finished event carrying the line as its error, whatever the patterns
    of the class are: none of them is consulted.  The benign decoding
    diagnostic yields no event, [Error opening input file] the error
    event. *)
Theorem process_status_line_error_first :
  (forall klass video line,
      PyStr.startswith "Unknown" line = true \/
      (PyStr.startswith "Error" line = true /\
       PyStr.startswith "Error while decoding stream" line = false) ->
      process_status_line klass video line = Returned (Some (EvError line))) /\
  (forall video,
      process_status_line FFmpegConverterInfoBase video
        "Error while decoding stream #0:0" = Returned None) /\
  (forall video,
      process_status_line FFmpegConverterInfoBase video
        "Error opening input file" = Returned (Some (EvError "Error opening input file"))).
Proof.
  split; [|split; intros video; by vm_compute].
  intros klass video line H.
  assert (Hcheck : _check_for_errors line = Some line).
  { unfold _check_for_errors. destruct H as [-> | [-> ->]]; [done|].
    by destruct (PyStr.startswith "Unknown" line). }
  assert (Htrue : PyStr.truthy line = true).
  { destruct H as [H | [H _]]; by apply startswith_truthy in H. }
  unfold process_status_line. rewrite Hcheck. cbn [truthy default].
  by rewrite Htrue.
Qed.

Lemma process_status_line_error_first_witness :
  process_status_line FFmpegConverterInfoBase sample_video
    "Unknown encoder 'libx264'" = Returned (Some (EvError "Unknown encoder 'libx264'")) /\
  process_status_line FFmpegConverterInfoBase sample_video
    "Error while opening encoder for output stream #0:0"
  = Returned (Some (EvError "Error while opening encoder for output stream #0:0")).
Proof.
  split; apply (proj1 process_status_line_error_first).
  - left. reflexivity.
  - right. split; reflexivity.
Defined.

(** A line that the final-summary pattern matches begins with [frame=]. *)
Lemma last_progress_prefix (line : string) :
  is_Some (Re.re_match (LAST_PROGRESS_RE FFmpegConverterInfoBase) line) ->
  exists rest, line = "frame=" ++ rest.
Proof.
  intros [m Hm]. unfold Re.re_match in Hm.
  cbn [LAST_PROGRESS_RE FFmpegConverterInfoBase Re.pat_re Re.pat_groups] in Hm.
  change (Re.cat (Re.Lit "frame=" :: ?l)) with (Re.Cat (Re.Lit "frame=") (Re.cat l)) in Hm.
  rewrite rmatch_Group in Hm. by apply rmatch_Lit_inv in Hm.
Qed.

(** C7 (as stated, refuted): a line of the final-summary shape, with its
    [Lsize=] marker, that also holds a [size=] field is taken by the
    progress pattern, which is tried first: it yields a progress event. *)
Lemma last_progress_shadowed :
  is_Some (Re.re_match (LAST_PROGRESS_RE FFmpegConverterInfoBase)
    "frame=100 fps=25 q=0 Lsize=2048kB size=2048kB time=00:02:00.00 bitrate=128.0kbits/s") /\
  process_status_line FFmpegConverterInfoBase sample_video
    "frame=100 fps=25 q=0 Lsize=2048kB size=2048kB time=00:02:00.00 bitrate=128.0kbits/s"
  = Returned (Some (EvProgress (PyFloat 120))).
Proof.
  split; [eexists; by vm_compute|]. vm_compute. reflexivity.
Qed.

(** C7 (amended): a line that the final-summary pattern (the progress
    shape with the capital-L [Lsize=] marker) matches, and that the
    progress pattern does not match, yields the finished event, which
    carries no progress value; the sample line of the specification is
    such a line. *)
Theorem process_status_line_finished :
  (forall video line,
      is_Some (Re.re_match (LAST_PROGRESS_RE FFmpegConverterInfoBase) line) ->
      Re.re_match (PROGRESS_RE FFmpegConverterInfoBase) line = None ->
      process_status_line FFmpegConverterInfoBase video line = Returned (Some EvFinished)) /\
  (forall video,
      process_status_line FFmpegConverterInfoBase video
        "frame=100 fps=25 q=0 Lsize=2048kB time=00:02:00.00 bitrate=128.0kbits/s"
      = Returned (Some EvFinished)).
Proof.
  split; [|intros video; by vm_compute].
  intros video line Hlast Hprog.
  destruct (last_progress_prefix line Hlast) as [rest ->].
  unfold process_status_line.
  change (_check_for_errors ("frame=" ++ rest)) with (@None string).
  cbn [truthy].
  change (Re.re_match (DURATION_RE FFmpegConverterInfoBase) ("frame=" ++ rest))
    with (@None Re.captures).
  rewrite Hprog. by destruct Hlast as [m ->].
Qed.

Lemma process_status_line_finished_witness :
  process_status_line FFmpegConverterInfoBase sample_video
    "frame=  250 fps= 25 q=0.0 Lsize=    2048kB time=00:00:10.00 bitrate=1677.7kbits/s"
  = Returned (Some EvFinished).
Proof.
  apply (proj1 process_status_line_finished).
  - eexists. by vm_compute.
  - by vm_compute.
Defined.

(** ** Further facts and examples *)

(** Whenever the commit phase leaves an error pending and the removal of
    the temporary output succeeds, [finalize] returns normally: the
    pending error is raised only from the handler of a failed removal. *)
Lemma finalize_pending_dropped {World : Type}
    (pp : string -> string -> World -> option exn * World)
    (mv : string -> string -> World -> option string * World)
    (rm : string -> World -> option string * World)
    self t o st e st1 w :
  commit pp mv self t o st = (Returned (Some e, true), st1) ->
  rm t (world st1) = (None, w) ->
  (finalize pp mv rm self t o st).1 = Returned tt.
Proof.
  intros Hc Hrm. unfold finalize. rewrite Hc.
  by apply cleanup_removed with (w := w).
Qed.

Example identifier_example :
  identifier (ConverterInfo_init 1 (Some "format") None (Some "mp4") "MP4 (H.264)")
  = "mp4h264".
Proof. reflexivity. Qed.

Example get_output_filename_profile_extension :
  get_output_filename sample_theora sample_video = "holiday.2012.oggtheora.ogv".
Proof. reflexivity. Qed.

Example get_output_filename_source_extension :
  get_output_filename (ConverterInfo_init 3 (Some "video") None None "Same Format")
    sample_video = "holiday.2012.sameformat.avi".
Proof. reflexivity. Qed.

Example get_output_filename_hidden_file :
  get_output_filename sample_mp4
    {| filename := "/home/user/.hidden"; duration := None; width := None; height := None |}
  = ".hidden.mp4.mp4".
Proof. reflexivity. Qed.

Example progress_example :
  process_status_line FFmpegConverterInfoBase sample_video
    "size=1024kB time=00:00:45.00 bitrate=128.0kbits/s"
  = Returned (Some (EvProgress (PyFloat 45))).
Proof. vm_compute. reflexivity. Qed.

Example progress_not_a_number :
  process_status_line FFmpegConverterInfoBase sample_video
    "size=1024kB time=N/A bitrate=N/A"
  = Raised (ValueError "could not convert string to float").
Proof. reflexivity. Qed.


(** * Further properties of the registry *)

(** A run of calls is the run of its events. *)
Lemma register_all_events b cs : forall r,
  foldl (fun r c => register b c r) r cs = foldl apply_event r (Loaded b <$> cs).
Proof. induction cs as [|c cs IH]; intros r; cbn; [done | apply IH]. Qed.

Lemma load_entry_events e r :
  load_entry r e = foldl apply_event r (entry_events e).
Proof. destruct e as [c|b cs]; cbn; [done | apply register_all_events]. Qed.

Lemma load_entries_events es : forall r,
  foldl load_entry r es = foldl apply_event r (es ≫= entry_events).
Proof.
  induction es as [|e es IH]; intros r; cbn; [done|].
  by rewrite foldl_app, IH, load_entry_events.
Qed.

Lemma load_converters_events units : forall r,
  load_converters units r =
  foldl apply_event r (units ≫= (fun u => default [] u ≫= entry_events)).
Proof.
  unfold load_converters.
  induction units as [|u units IH]; intros r; cbn; [done|].
  rewrite foldl_app, IH. by destruct u as [es|]; cbn; rewrite ?load_entries_events.
Qed.

Lemma step_events o r : step r o = foldl apply_event r (op_events o).
Proof.
  destruct o as [c|basic|units]; cbn;
    [done | apply load_entries_events | apply load_converters_events].
Qed.

Lemma run_events ops : forall r, run ops r = foldl apply_event r (events ops).
Proof.
  unfold run, events.
  induction ops as [|o ops IH]; intros r; cbn; [done|].
  by rewrite foldl_app, IH, step_events.
Qed.

(** Every event stores its converter under the converter's identifier. *)
Lemma converters_apply_event r ev :
  converters (apply_event r ev) =
  <[identifier (event_converter ev) := event_converter ev]> (converters r).
Proof. by destruct ev. Qed.

Lemma get_by_id_events id_ evs : forall r,
  get_by_id id_ (foldl apply_event r evs) =
  match last (for_identifier id_ evs) with
  | Some ev => Some (event_converter ev)
  | None => get_by_id id_ r
  end.
Proof.
  unfold get_by_id, for_identifier.
  induction evs as [|ev evs IH]; intros r; cbn [foldl]; [done|].
  rewrite IH, converters_apply_event, filter_cons.
  destruct (decide (identifier (event_converter ev) = id_)) as [<-|Hne].
  - rewrite last_cons, lookup_insert_eq. by destruct (last _).
  - by rewrite lookup_insert_ne.
Qed.

(** X1: in a registry reached by any sequence of calls, [get_by_id]
    returns the converter that was handed over last under that identifier,
    directly or by a loader; when none was, it returns what the starting
    registry held, and so raises [KeyError] on a registry built from
    [__init__]. *)
Theorem get_by_id_last_wins (ops : list op) (self : ConverterManager) (id_ : string) :
  get_by_id id_ (run ops self) =
  match last (for_identifier id_ (events ops)) with
  | Some ev => Some (event_converter ev)
  | None => get_by_id id_ self
  end.
Proof. rewrite run_events. apply get_by_id_events. Qed.

(** X2: [startup] loads the built-in list and then the external scripts,
    so for every identifier a converter of a script takes precedence over a
    built-in one; among the scripts, and among the built-ins, the last
    definition counts. *)
Theorem startup_external_overrides
    (basic : list entry) (units : list (option (list entry))) (id_ : string) :
  get_by_id id_ (startup basic units ConverterManager_init) =
  match last (for_identifier id_ (op_events (LoadConverters units))) with
  | Some ev => Some (event_converter ev)
  | None =>
      match last (for_identifier id_ (op_events (LoadSimple basic))) with
      | Some ev => Some (event_converter ev)
      | None => None
      end
  end.
Proof.
  unfold startup.
  rewrite load_converters_events, get_by_id_events.
  unfold load_simple_converters.
  rewrite load_entries_events, get_by_id_events.
  done.
Qed.

(** A converter found in the registry sits under its own identifier,
    unless the starting registry already held it there. *)
Lemma converters_own_key evs : forall r k c,
  converters (foldl apply_event r evs) !! k = Some c ->
  identifier c = k \/ converters r !! k = Some c.
Proof.
  induction evs as [|ev evs IH]; intros r k c; cbn [foldl]; [by right|].
  intros H. apply IH in H as [H|H]; [by left|].
  rewrite converters_apply_event in H.
  destruct (decide (identifier (event_converter ev) = k)) as [<-|Hne].
  - rewrite lookup_insert_eq in H. injection H as <-. by left.
  - rewrite lookup_insert_ne in H by done. by right.
Qed.

(** X3: in a registry built from [__init__], every converter is stored
    under its own identifier, so [list_converters] never lists two
    converters with the same identifier. *)
Theorem list_converters_distinct (ops : list op) :
  (forall k c,
      get_by_id k (run ops ConverterManager_init) = Some c -> identifier c = k) /\
  NoDup (identifier <$> list_converters (run ops ConverterManager_init)).
Proof.
  assert (Hown : forall k c,
    converters (run ops ConverterManager_init) !! k = Some c -> identifier c = k).
  { intros k c H. rewrite run_events in H.
    apply converters_own_key in H as [H|H]; [done|].
    cbn in H. by rewrite lookup_empty in H. }
  split; [exact Hown|].
  unfold list_converters.
  set (m := converters (run ops ConverterManager_init)) in *.
  assert (Heq : identifier <$> (map_to_list m).*2 = (map_to_list m).*1).
  { assert (Hall : Forall (fun kv => identifier kv.2 = kv.1) (map_to_list m)).
    { apply Forall_forall. intros [k c] Hin. cbn.
      apply Hown. by apply elem_of_map_to_list. }
    induction Hall as [|[k c] l Hkc _ IH]; cbn in *; [done|]. by rewrite Hkc, IH. }
  rewrite Heq. apply NoDup_fst_map_to_list.
Qed.

Lemma list_converters_distinct_witness :
  identifier sample_theora = "oggtheora".
Proof.
  apply (proj1 (list_converters_distinct
                  [LoadSimple [Grouped "Xiph" [sample_theora]]; AddConverter sample_mp4])).
  by vm_compute.
Defined.

(** *** Brand groups *)

Lemma brand_map_events b evs : forall r,
  brand_map (foldl apply_event r evs) !! b =
  match brand_map r !! b, event_converter <$> for_brand b evs with
  | Some l0, l => Some (l0 ++ l)%list
  | None, [] => None
  | None, l => Some l
  end.
Proof.
  unfold for_brand.
  induction evs as [|ev evs IH]; intros r; cbn [foldl].
  - cbn. destruct (brand_map r !! b); by rewrite ?app_nil_r.
  - rewrite IH, filter_cons. destruct ev as [c|b' c]; cbn [apply_event event_brand].
    + rewrite decide_False by done. done.
    + destruct (decide (Some b' = Some b)) as [[= ->]|Hne]; cbn.
      * rewrite lookup_insert_eq.
        destruct (brand_map r !! b) as [l0|]; cbn; [by rewrite <- app_assoc | done].
      * rewrite lookup_insert_ne by congruence. done.
Qed.

(** X4: in a registry built from [__init__], [brand_to_converters(brand)]
    is the list of the converters the loaders registered under that brand,
    in loading order and with repetitions kept; it is [None] exactly when
    no converter was loaded under the brand, and never an empty list. *)
Theorem brand_to_converters_history (ops : list op) (brand : option string) :
  brand_to_converters brand (run ops ConverterManager_init) =
  match event_converter <$> for_brand brand (events ops) with
  | [] => None
  | l => Some l
  end.
Proof.
  unfold brand_to_converters. rewrite run_events, brand_map_events.
  cbn. by rewrite lookup_empty.
Qed.

Lemma brand_rmap_events a evs : forall r,
  brand_rmap (foldl apply_event r evs) !! a =
  match last (filter (fun ev => event_key ev = Some a) evs) with
  | Some ev => event_brand ev
  | None => brand_rmap r !! a
  end.
Proof.
  induction evs as [|ev evs IH]; intros r; cbn [foldl]; [done|].
  rewrite IH, filter_cons. destruct ev as [c|b c]; cbn [apply_event event_key].
  - rewrite decide_False by done. done.
  - destruct (decide (Some (addr c) = Some a)) as [[= <-]|Hne].
    + rewrite last_cons. cbn. rewrite lookup_insert_eq. by destruct (last _).
    + cbn. rewrite lookup_insert_ne by congruence. done.
Qed.

(** X5: in a registry built from [__init__], [converter_to_brand(c)] is the
    brand under which the object [c] was loaded last -- [None] when that
    was as a bare entry -- and [None] when no loader ever received it. *)
Theorem converter_to_brand_history (ops : list op) (c : ConverterInfo) :
  converter_to_brand c (run ops ConverterManager_init) =
  match last (for_object c (events ops)) with
  | Some ev => default None (event_brand ev)
  | None => None
  end.
Proof.
  unfold converter_to_brand, for_object. rewrite run_events, brand_rmap_events.
  destruct (last _) as [ev|]; cbn; [by destruct (event_brand ev) | by rewrite lookup_empty].
Qed.

(** X6: the two brand maps agree in one direction: when
    [converter_to_brand(c)] returns a brand, the group
    [brand_to_converters] gives for that brand holds the object [c]. *)
Theorem converter_to_brand_in_group (ops : list op) (c : ConverterInfo) (brand : string) :
  converter_to_brand c (run ops ConverterManager_init) = Some brand ->
  exists l c',
    brand_to_converters (Some brand) (run ops ConverterManager_init) = Some l /\
    c' ∈ l /\ addr c' = addr c.
Proof.
  unfold converter_to_brand, brand_to_converters.
  rewrite run_events, brand_rmap_events, brand_map_events.
  cbn [brand_rmap brand_map ConverterManager_init]. rewrite !lookup_empty.
  fold (for_object c (events ops)).
  destruct (last (for_object c (events ops))) as [ev|] eqn:Hlast; [|done].
  intros Hb. apply last_Some_elem_of in Hlast.
  apply list_elem_of_filter in Hlast as [Hkey Hin].
  destruct ev as [c0|b c0]; cbn in Hb, Hkey; [done|]. subst b.
  injection Hkey as Hkey.
  assert (Hmem : c0 ∈ event_converter <$> for_brand (Some brand) (events ops)).
  { apply list_elem_of_fmap. exists (Loaded (Some brand) c0).
    split; [done|]. by apply list_elem_of_filter. }
  destruct (event_converter <$> for_brand (Some brand) (events ops)) as [|c1 l] eqn:E.
  - by apply elem_of_nil in Hmem.
  - by exists (c1 :: l), c0.
Qed.

Lemma converter_to_brand_in_group_witness :
  exists l c',
    brand_to_converters (Some "Xiph")
      (run [LoadSimple [Grouped "Xiph" [sample_theora]; Bare sample_mp4]]
         ConverterManager_init) = Some l /\
    c' ∈ l /\ addr c' = addr sample_theora.
Proof.
  apply (converter_to_brand_in_group
           [LoadSimple [Grouped "Xiph" [sample_theora]; Bare sample_mp4]]
           sample_theora "Xiph").
  by vm_compute.
Defined.

(** * Further properties of [finalize] *)

Section FinalizeMore.

Context {World : Type}.
Variable pp : string -> string -> World -> option exn * World.
Variable mv : string -> string -> World -> option string * World.
Variable rm : string -> World -> option string * World.

(** X7: the exceptions of [finalize], exactly.  It raises [e] in three
    cases only: the remux pass raised [e] outside [FastStartException]
    (no handler catches it); the remux pass raised [FastStartException],
    the removal failed too, and [e] is the [EnvironmentError] that wraps
    the remux failure; the move failed with [e] and the removal failed
    too.  The error of the removal itself is never raised. *)
Theorem finalize_raises_iff self t o st e :
  (finalize pp mv rm self t o st).1 = Raised e <->
  (wants_remux self = true /\
   ((exists w, pp t o (world st) = (Some e, w) /\ is_FastStartException e = false) \/
    (exists m w1 msg w2,
        pp t o (world st) = (Some (FastStartException m), w1) /\
        rm t w1 = (Some msg, w2) /\
        e = EnvironmentError "qtfaststart exception"))) \/
  (wants_remux self = false /\
   exists m w1 msg w2,
     mv t o (world st) = (Some m, w1) /\
     rm t w1 = (Some msg, w2) /\
     e = EnvironmentError m).
Proof.
  unfold finalize, commit, cleanup, record.
  destruct (wants_remux self); cbn.
  - destruct (pp t o (world st)) as [[e0|] w1] eqn:Hpp; cbn.
    + destruct e0 as [m|m|m|m|m|m|m]; cbn;
        try (split;
             [ intros [= <-]; left; split; [done|]; left; by eexists
             | intros [[_ [(w & [= <- <-] & _) | (m' & w1' & msg & w2 & [=] & _)]]
                       | [[=] _]]; done ]).
      destruct (rm t w1) as [[msg|] w2] eqn:Hrm; cbn.
      * split.
        -- intros [= <-]. left. split; [done|]. right. by exists m, w1, msg, w2.
        -- intros [[_ [(w & [= <- <-] & [=]) | (m' & w1' & msg' & w2' & _ & _ & ->)]]
                   | [[=] _]]. done.
      * split; [done|].
        intros [[_ [(w & [= <- <-] & [=]) | (m' & w1' & msg' & w2' & [= <- <-] & Hrm' & _)]]
                | [[=] _]].
        rewrite Hrm in Hrm'. done.
    + destruct (rm t w1) as [[msg|] w2]; cbn;
        (split; [done|]);
        intros [[_ [(w & [=] & _) | (m' & w1' & msg' & w2' & [=] & _)]] | [[=] _]].
  - destruct (mv t o (world st)) as [[m|] w1] eqn:Hmv; cbn.
    + destruct (rm t w1) as [[msg|] w2] eqn:Hrm; cbn.
      * split.
        -- intros [= <-]. right. split; [done|]. by exists m, w1, msg, w2.
        -- intros [[[=] _] | [_ (m' & w1' & msg' & w2' & [= <- <-] & _ & ->)]]. done.
      * split; [done|].
        intros [[[=] _] | [_ (m' & w1' & msg' & w2' & [= <- <-] & Hrm' & _)]].
        rewrite Hrm in Hrm'. done.
    + split; [done|].
      intros [[[=] _] | [_ (m' & w1' & msg' & w2' & [=] & _)]].
Qed.

(** X8: the calls [finalize] makes to its collaborators, exactly.  The
    commit operation comes first and is called once, with
    [(temp_output, output)].  [os.remove] is called at most once, after
    the commit operation and on [temp_output] only: after every remux pass
    that did not raise past its handler, and after a move only when the
    move failed.  So no path other than [temp_output] is ever removed, and
    the final output is removed only when it is that same path. *)
Theorem finalize_effects self t o st :
  exists calls,
    extends st (finalize pp mv rm self t o st).2 calls /\
    effects calls =
      (if wants_remux self then
         match pp t o (world st) with
         | (Some e, _) =>
             if is_FastStartException e then [CallProcess t o; CallRemove t]
             else [CallProcess t o]
         | (None, _) => [CallProcess t o; CallRemove t]
         end
       else
         match mv t o (world st) with
         | (Some _, _) => [CallMove t o; CallRemove t]
         | (None, _) => [CallMove t o]
         end) /\
    (forall p, CallRemove p ∈ calls -> p = t) /\
    (CallRemove o ∈ calls -> o = t).
Proof.
  assert (Hin : forall (calls : list call) p,
             CallRemove p ∈ calls -> CallRemove p ∈ effects calls).
  { intros calls p Hp. unfold effects. apply list_elem_of_filter. by split. }
  assert (Hmain : exists calls,
    extends st (finalize pp mv rm self t o st).2 calls /\
    effects calls =
      (if wants_remux self then
         match pp t o (world st) with
         | (Some e, _) =>
             if is_FastStartException e then [CallProcess t o; CallRemove t]
             else [CallProcess t o]
         | (None, _) => [CallProcess t o; CallRemove t]
         end
       else
         match mv t o (world st) with
         | (Some _, _) => [CallMove t o; CallRemove t]
         | (None, _) => [CallMove t o]
         end)).
  { unfold finalize, commit, cleanup, record, extends, effects.
    destruct (wants_remux self); cbn.
    - destruct (pp t o (world st)) as [[e0|] w1]; cbn.
      + destruct e0 as [m|m|m|m|m|m|m]; cbn;
          try (by eexists; split; [by rewrite <- ?app_assoc|]).
        destruct (rm t w1) as [[msg|] w2]; cbn;
          by eexists; split; [by rewrite <- ?app_assoc|].
      + destruct (rm t w1) as [[msg|] w2]; cbn;
          by eexists; split; [by rewrite <- ?app_assoc|].
    - destruct (mv t o (world st)) as [[m|] w1]; cbn.
      + destruct (rm t w1) as [[msg|] w2]; cbn;
          by eexists; split; [by rewrite <- ?app_assoc|].
      + by eexists; split; [by rewrite <- ?app_assoc|]. }
  destruct Hmain as (calls & Hext & Heff).
  assert (Honly : forall p, CallRemove p ∈ calls -> p = t).
  { intros p Hp%Hin. rewrite Heff in Hp.
    destruct (wants_remux self).
    - destruct (pp t o (world st)) as [[e0|] w1]; [destruct (is_FastStartException e0)|];
        repeat (apply elem_of_cons in Hp as [Hp | Hp]; [by injection Hp || discriminate Hp|]);
        by apply elem_of_nil in Hp.
    - destruct (mv t o (world st)) as [[m|] w1];
        repeat (apply elem_of_cons in Hp as [Hp | Hp]; [by injection Hp || discriminate Hp|]);
        by apply elem_of_nil in Hp. }
  exists calls. split; [done|]. split; [done|]. split; [done|]. apply Honly.
Qed.

End FinalizeMore.

(** * Further properties of the profiles *)

Lemma lower_char_alnum (c : ascii) :
  PyStr.is_alnum c = true ->
  PyStr.is_lower (PyStr.lower_char c) || PyStr.is_digit (PyStr.lower_char c) = true.
Proof.
  destruct c as [[] [] [] [] [] [] [] []]; intros H;
    solve [discriminate H | reflexivity].
Qed.

Lemma lower_or_digit_fixed (c : ascii) :
  PyStr.is_lower c || PyStr.is_digit c = true ->
  PyStr.is_alnum c = true /\ PyStr.lower_char c = c.
Proof.
  destruct c as [[] [] [] [] [] [] [] []]; intros H;
    solve [discriminate H | split; reflexivity].
Qed.

Lemma lower_char_class (c : ascii) :
  PyStr.is_alnum (PyStr.lower_char c) = PyStr.is_alnum c /\
  PyStr.lower_char (PyStr.lower_char c) = PyStr.lower_char c.
Proof. destruct c as [[] [] [] [] [] [] [] []]; split; reflexivity. Qed.

Lemma identifier_chars (nm : string) :
  PyStr.forallb (fun c => PyStr.is_lower c || PyStr.is_digit c)
    (PyStr.lower (NON_WORD_CHARS_sub nm)) = true.
Proof.
  unfold NON_WORD_CHARS_sub.
  induction nm as [|c nm IH]; simpl; [done|].
  destruct (PyStr.is_alnum c) eqn:E; simpl; [|done].
  by rewrite (lower_char_alnum c E), IH.
Qed.

Lemma normalize_fixed (s : string) :
  PyStr.forallb (fun c => PyStr.is_lower c || PyStr.is_digit c) s = true ->
  PyStr.lower (NON_WORD_CHARS_sub s) = s.
Proof.
  unfold NON_WORD_CHARS_sub.
  induction s as [|c s IH]; simpl; [done|].
  intros [Hc Hs]%andb_prop. destruct (lower_or_digit_fixed c Hc) as [-> Hl].
  simpl. by rewrite Hl, (IH Hs).
Qed.

(** X9: the identifier [__init__] derives from a name holds lower-case
    letters and digits only, and deriving an identifier from an identifier
    gives it back. *)
Theorem identifier_normal_form a mt br ext nm :
  PyStr.forallb (fun c => PyStr.is_lower c || PyStr.is_digit c)
    (identifier (ConverterInfo_init a mt br ext nm)) = true /\
  identifier (ConverterInfo_init a mt br ext
                (identifier (ConverterInfo_init a mt br ext nm)))
  = identifier (ConverterInfo_init a mt br ext nm).
Proof.
  cbn [identifier ConverterInfo_init].
  split; [apply identifier_chars | apply normalize_fixed, identifier_chars].
Qed.

Lemma filter_app (p : ascii -> bool) (s1 s2 : string) :
  PyStr.filter p (s1 ++ s2) = PyStr.filter p s1 ++ PyStr.filter p s2.
Proof.
  induction s1 as [|c s1 IH]; simpl; [done|].
  destruct (p c); simpl; by rewrite IH.
Qed.

Lemma filter_none (p : ascii -> bool) (s : string) :
  PyStr.forallb (fun c => negb (p c)) s = true -> PyStr.filter p s = EmptyString.
Proof.
  induction s as [|c s IH]; simpl; [done|].
  intros [Hc Hs]%andb_prop. apply negb_true_iff in Hc. rewrite Hc. by apply IH.
Qed.

(** X10: letter case and punctuation do not count in a name: lower-casing
    the name, or inserting anywhere in it characters that are neither
    letters nor digits, leaves the identifier as it is. *)
Theorem identifier_ignores_case_and_punctuation a mt br ext :
  (forall nm,
      identifier (ConverterInfo_init a mt br ext (PyStr.lower nm))
      = identifier (ConverterInfo_init a mt br ext nm)) /\
  (forall nm1 p nm2,
      PyStr.forallb (fun c => negb (PyStr.is_alnum c)) p = true ->
      identifier (ConverterInfo_init a mt br ext (nm1 ++ p ++ nm2))
      = identifier (ConverterInfo_init a mt br ext (nm1 ++ nm2))).
Proof.
  cbn [identifier ConverterInfo_init]. unfold NON_WORD_CHARS_sub. split.
  - intros nm. induction nm as [|c nm IH]; simpl; [done|].
    destruct (lower_char_class c) as [-> Hll].
    destruct (PyStr.is_alnum c); simpl; by rewrite ?Hll, IH.
  - intros nm1 p nm2 Hp.
    by rewrite !filter_app, (filter_none _ p Hp).
Qed.

Lemma identifier_ignores_case_and_punctuation_witness :
  identifier (ConverterInfo_init 1 None None None ("MP4" ++ " (" ++ "H264)"))
  = identifier (ConverterInfo_init 1 None None None ("MP4" ++ "H264)")).
Proof.
  apply (proj2 (identifier_ignores_case_and_punctuation 1 None None None)).
  reflexivity.
Defined.

(** *** Output file names are bare file names *)

Lemma contains_app (c : ascii) (s1 s2 : string) :
  PyStr.contains c (s1 ++ s2) = PyStr.contains c s1 || PyStr.contains c s2.
Proof.
  induction s1 as [|d s1 IH]; simpl; [done|].
  by rewrite IH, orb_assoc.
Qed.

Lemma string_app_length (s1 s2 : string) :
  String.length (s1 ++ s2) = (String.length s1 + String.length s2)%nat.
Proof. induction s1 as [|c s1 IH]; [done | exact (f_equal S IH)]. Qed.

Lemma string_app_assoc (s1 s2 s3 : string) : (s1 ++ s2) ++ s3 = s1 ++ s2 ++ s3.
Proof. induction s1 as [|c s1 IH]; [done | exact (f_equal (String c) IH)]. Qed.

(** [basename] holds no slash. *)
Lemma basename_no_slash (p : string) :
  PyStr.contains "/" (PosixPath.basename p) = false.
Proof.
  unfold PosixPath.basename.
  destruct (rfind_spec "/" p) as [[Hno ->] | (pre & x & -> & Hno & ->)].
  - change (-1 + 1) with 0.
    unfold PyStr.slice_from. simpl Z.to_nat. rewrite Nat.sub_0_r.
    by rewrite substring_all.
  - replace (Z.of_nat (String.length pre) + 1)
      with (Z.of_nat (String.length (pre ++ "/"))).
    + replace (pre ++ String "/" x) with ((pre ++ "/") ++ x)
        by apply string_app_assoc.
      by rewrite slice_from_app.
    + rewrite string_app_length. simpl. lia.
Qed.

Lemma lower_or_digit_no_slash (s : string) :
  PyStr.forallb (fun c => PyStr.is_lower c || PyStr.is_digit c) s = true ->
  PyStr.contains "/" s = false.
Proof.
  induction s as [|c s IH]; simpl; [done|].
  intros [Hc Hs]%andb_prop. rewrite (IH Hs), orb_false_r.
  destruct (Ascii.eqb "/" c) eqn:E; [|done].
  apply Ascii.eqb_eq in E as <-. discriminate Hc.
Qed.

(** X11: the output file name of a profile built by [__init__] is a bare
    file name: whatever directory the source lies in, it holds no slash,
    provided the extension the profile's class sets holds none. *)
Theorem get_output_filename_no_slash a mt br ext nm video :
  PyStr.contains "/" (default EmptyString ext) = false ->
  PyStr.contains "/" (get_output_filename (ConverterInfo_init a mt br ext nm) video) = false.
Proof.
  intros Hext. unfold get_output_filename. cbn [extension identifier ConverterInfo_init].
  pose proof (basename_no_slash (filename video)) as Hb.
  pose proof (lower_or_digit_no_slash _ (identifier_chars nm)) as Hid.
  destruct (splitext_spec (PosixPath.basename (filename video)))
    as [-> | (stem & x & -> & Heq & _)].
  - rewrite !contains_app, Hb, Hid. cbn.
    by destruct (truthy ext).
  - rewrite Heq in Hb. rewrite contains_app in Hb.
    apply orb_false_elim in Hb as [Hstem Hx]. cbn in Hx.
    rewrite !contains_app, Hstem, Hid. cbn.
    by destruct (truthy ext).
Qed.

Lemma get_output_filename_no_slash_witness :
  PyStr.contains "/" (get_output_filename sample_theora sample_video) = false.
Proof.
  apply (get_output_filename_no_slash 2 (Some "format") None (Some "ogv")
           "Ogg Theora" sample_video).
  reflexivity.
Defined.

(** *** The size guess *)

Lemma float_of_int_raises (n : Z) (e : exn) :
  float_of_int n = Raised e -> e = OverflowError "long int too large to convert to float".
Proof. unfold float_of_int. destruct (is_infinity _); [by intros [= <-] | done]. Qed.

Lemma py_div_float_8 (p : float) :
  py_div (PyFloat p) (PyInt 8) = Returned (PyFloat (p / 8)).
Proof. reflexivity. Qed.

(** With both attributes true, the guess is the value of the expression. *)
Lemma get_output_size_guess_value (self : ConverterInfo) (video : Video) (b d : pynum) :
  bitrate self = Some b -> duration video = Some d ->
  truthy_num (Some b) = true -> truthy_num (Some d) = true ->
  get_output_size_guess self video =
    (p <- py_mul b d ;; q <- py_div p (PyInt 8) ;; Returned (Some q)).
Proof.
  unfold get_output_size_guess. intros -> -> -> ->. reflexivity.
Qed.

Lemma get_output_size_guess_none (self : ConverterInfo) (video : Video) :
  get_output_size_guess self video = Returned None <->
  truthy_num (bitrate self) = false \/ truthy_num (duration video) = false.
Proof.
  unfold get_output_size_guess.
  destruct (truthy_num (bitrate self)) eqn:Hb; [|by split; [left|]].
  destruct (truthy_num (duration video)) eqn:Hd; [|by split; [right|]].
  cbn. split; [|by intros [|]].
  destruct (bitrate self) as [b|]; [|done]. destruct (duration video) as [d|]; [|done].
  destruct (py_mul b d) as [p|]; [|done]. cbn [bind].
  by destruct (py_div p (PyInt 8)).
Qed.

(** X12: [get_output_size_guess] returns [None] exactly when the bitrate
    or the duration is [None] or zero.  Otherwise it returns the Python 2
    value of [bitrate * duration / 8]: for two integers the floor of the
    quotient; for two [float]s the binary64 product divided by [8.0]; for
    an integer and a [float], the same after the conversion of the
    integer, whose [OverflowError] is the only exception of the method.
    A guess can be zero: [1 * 7 / 8] is [0] and [1 * 5e-324 / 8] is
    [0.0]. *)
Theorem get_output_size_guess_spec :
  (forall self video,
    (get_output_size_guess self video = Returned None <->
     truthy_num (bitrate self) = false \/ truthy_num (duration video) = false) /\
    (forall b d,
        bitrate self = Some (PyInt b) -> duration video = Some (PyInt d) ->
        b <> 0 -> d <> 0 ->
        exists q,
          get_output_size_guess self video = Returned (Some (PyInt q)) /\
          8 * q <= b * d < 8 * q + 8) /\
    (forall b d,
        bitrate self = Some (PyFloat b) -> duration video = Some (PyFloat d) ->
        is_zero b = false -> is_zero d = false ->
        get_output_size_guess self video = Returned (Some (PyFloat (b * d / 8)))) /\
    (forall b d,
        bitrate self = Some (PyInt b) -> duration video = Some (PyFloat d) ->
        b <> 0 -> is_zero d = false ->
        get_output_size_guess self video =
          (f <- float_of_int b ;; Returned (Some (PyFloat (f * d / 8))))) /\
    (forall b d,
        bitrate self = Some (PyFloat b) -> duration video = Some (PyInt d) ->
        is_zero b = false -> d <> 0 ->
        get_output_size_guess self video =
          (g <- float_of_int d ;; Returned (Some (PyFloat (b * g / 8))))) /\
    (forall e,
        get_output_size_guess self video = Raised e ->
        e = OverflowError "long int too large to convert to float")) /\
  get_output_size_guess
    (ConverterInfo_init 4 (Some "audio") (Some (PyInt 1)) (Some "mp3") "MP3")
    {| filename := "a.wav"; duration := Some (PyInt 7); width := None; height := None |}
  = Returned (Some (PyInt 0)) /\
  get_output_size_guess
    (ConverterInfo_init 4 (Some "audio") (Some (PyInt 1)) (Some "mp3") "MP3")
    {| filename := "a.wav"; duration := Some (PyFloat 5e-324); width := None; height := None |}
  = Returned (Some (PyFloat 0)).
Proof.
  split; [|split; vm_compute; reflexivity].
  intros self video. split; [apply get_output_size_guess_none|].
  split; [|split; [|split; [|split]]].
  - intros b d Hb Hd Hb0 Hd0.
    rewrite (get_output_size_guess_value self video _ _ Hb Hd); cbn.
    2,3: by apply negb_true_iff, Z.eqb_neq.
    eexists. split; [reflexivity|].
    pose proof (Z.div_mod (b * d) 8 ltac:(done)).
    pose proof (Z.mod_pos_bound (b * d) 8 ltac:(done)). lia.
  - intros b d Hb Hd Hb0 Hd0.
    rewrite (get_output_size_guess_value self video _ _ Hb Hd); cbn [truthy_num].
    2,3: by apply negb_true_iff.
    reflexivity.
  - intros b d Hb Hd Hb0 Hd0.
    rewrite (get_output_size_guess_value self video _ _ Hb Hd); cbn [truthy_num].
    2: by apply negb_true_iff, Z.eqb_neq. 2: by apply negb_true_iff.
    cbn [py_mul coerce bind]. by destruct (float_of_int b).
  - intros b d Hb Hd Hb0 Hd0.
    rewrite (get_output_size_guess_value self video _ _ Hb Hd); cbn [truthy_num].
    2: by apply negb_true_iff. 2: by apply negb_true_iff, Z.eqb_neq.
    cbn [py_mul coerce bind]. by destruct (float_of_int d).
  - intros e. unfold get_output_size_guess.
    destruct (bitrate self) as [b|]; [|done].
    destruct (duration video) as [d|]; [|by rewrite orb_true_r].
    destruct (negb _ || negb _); [done|].
    destruct (truthy_num (Some d)); [|done].
    destruct b as [b|b], d as [d|d]; cbn [py_mul coerce bind].
    + done.
    + destruct (float_of_int b) eqn:E; cbn [bind]; [by rewrite py_div_float_8|].
      intros [= <-]. by apply float_of_int_raises in E.
    + destruct (float_of_int d) eqn:E; cbn [bind]; [by rewrite py_div_float_8|].
      intros [= <-]. by apply float_of_int_raises in E.
    + by rewrite py_div_float_8.
Qed.

Lemma get_output_size_guess_spec_witness :
  exists q,
    get_output_size_guess
      (ConverterInfo_init 4 (Some "audio") (Some (PyInt 960000)) (Some "mp3") "MP3")
      {| filename := "a.wav"; duration := Some (PyInt 90); width := None; height := None |}
    = Returned (Some (PyInt q)) /\
    8 * q <= 960000 * 90 < 8 * q + 8.
Proof.
  apply (proj1 (proj2 (proj1 get_output_size_guess_spec
           (ConverterInfo_init 4 (Some "audio") (Some (PyInt 960000)) (Some "mp3") "MP3")
           {| filename := "a.wav"; duration := Some (PyInt 90);
              width := None; height := None |}))
           960000 90 eq_refl eq_refl); done.
Defined.

(** * Argument vectors *)

Lemma str_split_plain (s : string) : Forall plain_word (str_split s).
Proof.
  induction s as [|c s IH]; simpl; [constructor|].
  destruct (PyStr.is_space c) eqn:Hc; [exact IH|].
  assert (Hone : plain_word (String c EmptyString)).
  { split; [done|]. simpl. by rewrite Hc. }
  destruct s as [|d s]; [by apply Forall_cons|].
  destruct (PyStr.is_space d) eqn:Hd; [by apply Forall_cons|].
  destruct (str_split (String d s)) as [|w ws]; [by apply Forall_cons|].
  inversion IH as [|? ? [Hw1 Hw2] Hws]; subst.
  constructor; [|done]. split; [done|]. simpl. by rewrite Hc, Hw2.
Qed.

Lemma str_split_concat (s : string) :
  String.concat "" (str_split s) = PyStr.filter (fun c => negb (PyStr.is_space c)) s.
Proof.
  induction s as [|c s IH]; [done|].
  change (PyStr.filter (fun c => negb (PyStr.is_space c)) (String c s))
    with (if negb (PyStr.is_space c)
          then String c (PyStr.filter (fun c => negb (PyStr.is_space c)) s)
          else PyStr.filter (fun c => negb (PyStr.is_space c)) s).
  rewrite <- IH. clear IH.
  change (str_split (String c s)) with
    (if PyStr.is_space c then str_split s
     else match s with
          | EmptyString => [String c EmptyString]
          | String d _ =>
              if PyStr.is_space d then String c EmptyString :: str_split s
              else match str_split s with
                   | w :: ws => String c w :: ws
                   | [] => [String c EmptyString]
                   end
          end).
  destruct (PyStr.is_space c); [done|]. cbn [negb].
  destruct s as [|d s]; [done|].
  destruct (PyStr.is_space d) eqn:Hd.
  - by destruct (str_split (String d s)).
  - destruct (str_split (String d s)) as [|w [|w' ws]]; done.
Qed.

(** X13: the argument vector of an ffmpeg profile.  It starts with [-i]
    and the source file name as it is, goes on with [-strict experimental]
    and ends with the output path as it is.  The arguments between them
    come from the formatted [parameters] template cut at white space: none
    of them is empty or holds white space, and put end to end they are the
    formatted text without its white space -- so a path with a blank that
    the template inserts is cut in pieces.  A profile without [parameters]
    raises [NotImplementedError] before any collaborator is consulted. *)
Theorem ffmpeg_arguments_shape
    (customize : list string -> outcome (list string))
    (rescale : option Z * option Z -> option Z * option Z -> bool -> outcome (Z * Z))
    (fmt : string -> string -> string -> string -> outcome string)
    (self : FFmpegConverterInfo.t) (video : Video) (output : string) :
  (forall args,
      get_arguments customize (get_extra_arguments rescale fmt self) video output
      = Returned args ->
      exists params wh text extra_args,
        FFmpegConverterInfo.parameters self = Some params /\
        fmt params (str_of_int wh.1 ++ "x" ++ str_of_int wh.2) (filename video) output
        = Returned text /\
        get_extra_arguments rescale fmt self video output = Returned (str_split text) /\
        Forall plain_word (str_split text) /\
        String.concat "" (str_split text)
        = PyStr.filter (fun c => negb (PyStr.is_space c)) text /\
        customize (str_split text) = Returned extra_args /\
        args = ("-i" :: filename video :: "-strict" :: "experimental" ::
                extra_args ++ [output])%list) /\
  (FFmpegConverterInfo.parameters self = None ->
   get_arguments customize (get_extra_arguments rescale fmt self) video output
   = Raised NotImplementedError).
Proof.
  unfold get_arguments, get_extra_arguments. split.
  - intros args.
    destruct (FFmpegConverterInfo.parameters self) as [params|]; [|done].
    destruct (rescale _ _ _) as [wh|e] eqn:Hr; cbn [bind]; [|done].
    destruct (fmt _ _ _ _) as [text|e] eqn:Hf; cbn [bind]; [|done].
    destruct (customize _) as [extra_args|e] eqn:Hc; cbn [bind]; [|done].
    intros [= <-]. exists params, wh, text, extra_args.
    repeat split; try done; [apply str_split_plain | apply str_split_concat].
  - by intros ->.
Qed.

Lemma ffmpeg_arguments_shape_witness :
  exists text : string,
    Forall plain_word (str_split text) /\
    ["-i"; "/home/user/clips/holiday.2012.avi"; "-strict"; "experimental";
     "-s"; "640x480"; "-f"; "ogg"; "/my"; "clips/a.ogv"; "/my clips/a.ogv"]
    = ("-i" :: filename sample_video :: "-strict" :: "experimental" ::
       str_split text ++ ["/my clips/a.ogv"])%list.
Proof.
  destruct (proj1 (ffmpeg_arguments_shape
                     (fun args => Returned args)
                     (fun _ _ _ => Returned (640, 480))
                     (fun _ ssize _ output =>
                        Returned ("-s " ++ ssize ++ " -f ogg " ++ output))
                     (FFmpegConverterInfo.init 5 (Some "video") None (Some "ogv")
                        (Some "-s {ssize} -f ogg {output}") "Theora"
                        (Some 640) (Some 480) true)
                     sample_video "/my clips/a.ogv")
              ["-i"; "/home/user/clips/holiday.2012.avi"; "-strict"; "experimental";
               "-s"; "640x480"; "-f"; "ogg"; "/my"; "clips/a.ogv"; "/my clips/a.ogv"]
              eq_refl)
    as (params & wh & text & extra_args & _ & _ & _ & Hplain & _ & Hc & Hargs).
  exists text. split; [exact Hplain|].
  injection Hc as <-. exact Hargs.
Defined.

(** * Further properties of the classifier *)

(** ** Inversion of the matcher *)

Lemma star_greedy_inv {A} p s (k : string -> option A) r :
  Re.star_greedy p s k = Some r -> exists s', k s' = Some r.
Proof.
  induction s as [|c s IH]; simpl; [eauto|].
  destruct (p c); [|eauto].
  destruct (Re.star_greedy p s k) as [r'|] eqn:E; [|eauto].
  intros [= ->]. by apply IH.
Qed.

Lemma keeps_refl caps : keeps caps caps.
Proof. split; eauto. Qed.

Lemma keeps_trans caps1 caps2 caps3 :
  keeps caps1 caps2 -> keeps caps2 caps3 -> keeps caps1 caps3.
Proof.
  intros [Hl1 H1] [Hl2 H2]. split; [congruence|].
  intros n t Hn. destruct (H1 n t Hn) as [t' Ht']. eauto.
Qed.

Lemma keeps_insert caps n x : keeps caps (<[n := Some x]> caps).
Proof.
  split; [apply length_insert|].
  intros m t Hm. destruct (decide (n = m)) as [->|Hne].
  - exists x. apply list_lookup_insert_eq. by eapply lookup_lt_Some.
  - exists t. by rewrite list_lookup_insert_ne.
Qed.

(** Whatever a match hands to its continuation has every mandatory group
    set, and no group unset that was set before. *)
Lemma rmatch_sets {A} (r : Re.regex) : forall s caps (k : string -> Re.captures -> option A) x,
  Re.rmatch r s caps k = Some x ->
  exists s' caps',
    k s' caps' = Some x /\ keeps caps caps' /\
    forall n, n ∈ mandatory_groups r -> (n < length caps)%nat ->
              exists t, caps' !! n = Some (Some t).
Proof.
  induction r as [l|p|p|r1 IH1 r2 IH2|r1 IH1|g r1 IH1]; intros s caps k x; simpl.
  - destruct (PyStr.strip_prefix l s) as [s'|]; [|done].
    intros H. exists s', caps. split; [done|]. split; [apply keeps_refl|].
    intros n Hn. by apply elem_of_nil in Hn.
  - destruct s as [|c s]; [done|]. destruct (p c); [|done].
    intros H. exists s, caps. split; [done|]. split; [apply keeps_refl|].
    intros n Hn. by apply elem_of_nil in Hn.
  - intros (s' & H)%star_greedy_inv.
    exists s', caps. split; [done|]. split; [apply keeps_refl|].
    intros n Hn. by apply elem_of_nil in Hn.
  - intros H. apply IH1 in H as (s1 & caps1 & H & Hk1 & Hm1).
    apply IH2 in H as (s2 & caps2 & H & Hk2 & Hm2).
    exists s2, caps2. split; [done|]. split; [by eapply keeps_trans|].
    intros n [Hn|Hn]%elem_of_app Hlt.
    + destruct (Hm1 n Hn Hlt) as [t Ht]. by apply (proj2 Hk2 n t).
    + apply Hm2; [done|]. by rewrite (proj1 Hk1).
  - destruct (Re.rmatch r1 s caps k) as [y|] eqn:E.
    + intros [= ->]. apply IH1 in E as (s1 & caps1 & H & Hk1 & _).
      exists s1, caps1. split; [done|]. split; [done|].
      intros n Hn. by apply elem_of_nil in Hn.
    + intros H. exists s, caps. split; [done|]. split; [apply keeps_refl|].
      intros n Hn. by apply elem_of_nil in Hn.
  - intros H. apply IH1 in H as (s1 & caps1 & H & Hk1 & Hm1).
    exists s1, (<[g := Some (Re.consumed s s1)]> caps1).
    split; [done|]. split; [eapply keeps_trans; [done | apply keeps_insert]|].
    intros n Hn Hlt. apply elem_of_cons in Hn as [->|Hn].
    + eexists. apply list_lookup_insert_eq. by rewrite (proj1 Hk1).
    + destruct (Hm1 n Hn Hlt) as [t Ht].
      by apply (proj2 (keeps_insert caps1 g (Re.consumed s s1)) n t).
Qed.

(** A match of a pattern sets each of its mandatory groups. *)
Lemma re_match_group (p : Re.pattern) (line : string) (m : Re.captures) (n : nat) :
  Re.re_match p line = Some m ->
  n ∈ mandatory_groups (Re.pat_re p) -> (n <= Re.pat_groups p)%nat ->
  exists t, Re.group m n = Some t.
Proof.
  unfold Re.re_match, Re.group. intros H Hn Hle.
  apply rmatch_sets in H as (s' & caps' & [= <-] & _ & Hm).
  destruct (Hm n) as [t Ht].
  - by right.
  - rewrite length_replicate. lia.
  - exists t. by rewrite Ht.
Qed.
(** ** Which events the classifier gives *)

Lemma py_float_raises (s : string) (e : exn) :
  PyNum.py_float s = Raised e -> exists msg, e = ValueError msg.
Proof.
  unfold PyNum.py_float. destruct (PyNum.read_sign _) as [neg body].
  destruct (_ || _)%bool; [done|]. destruct (String.eqb _ _); [done|].
  destruct (PyNum.read_decimal body) as [[m x]|]; [done|]. intros [= <-]. eauto.
Qed.

(** On three [float]s [hms_to_seconds] returns: the products and the sums
    of binary64, from left to right. *)
Lemma hms_to_seconds_float (h m s : float) :
  hms_to_seconds (PyFloat h) (PyFloat m) (PyFloat s)
  = Returned (PyFloat (h * 3600 + m * 60 + s)).
Proof. reflexivity. Qed.

Lemma for_each_py_float_raises (l : list string) (e : exn) :
  for_each PyNum.py_float l = Raised e -> exists msg, e = ValueError msg.
Proof.
  induction l as [|s l IH]; cbn [for_each bind]; [done|].
  destruct (PyNum.py_float s) as [x|e0] eqn:E; cbn [bind].
  - destruct (for_each PyNum.py_float l) as [xs|e1]; cbn [bind]; [done|].
    intros [= <-]. by apply IH.
  - intros [= <-]. by eapply py_float_raises.
Qed.

(** The duration branch gives a duration event or raises. *)
Lemma duration_event_shape (m : Re.captures) :
  (exists d, duration_event m = Returned (Some (EvDuration d))) \/
  (exists e, duration_event m = Raised e).
Proof.
  unfold duration_event.
  destruct (for_each PyNum.py_int _) as [ns|e]; cbn [bind]; [|eauto].
  destruct ns as [|h [|mi [|s [|c [|]]]]]; eauto.
  destruct (py_mul _ _) as [x|e]; cbn [bind]; [|eauto].
  destruct (py_add _ _) as [y|e]; cbn [bind]; [|eauto].
  destruct (hms_to_seconds _ _ _) as [d|e]; cbn [bind]; eauto.
Qed.

(** The progress branch gives a progress event or raises; it raises a
    [ValueError] when group 1 took part in the match. *)
Lemma progress_event_shape (m : Re.captures) :
  (exists p, progress_event m = Returned (Some (EvProgress p))) \/
  (exists e, progress_event m = Raised e /\
             (is_Some (Re.group m 1) -> exists msg, e = ValueError msg)).
Proof.
  unfold progress_event. destruct (Re.group m 1) as [t|].
  - destruct (PyStr.contains ":" t).
    + destruct (for_each PyNum.py_float _) as [fs|e] eqn:E; cbn [bind].
      * destruct fs as [|h [|mi [|s [|]]]]; rewrite ?hms_to_seconds_float; eauto.
      * right. exists e. split; [done|]. intros _. by eapply for_each_py_float_raises.
    + destruct (PyNum.py_float t) as [p|e] eqn:E; cbn [bind]; [eauto|].
      right. exists e. split; [done|]. intros _. by eapply py_float_raises.
  - right. eexists. split; [done|]. by intros [? [=]].
Qed.

(** X14: an error event is given for the lines of the error check and for
    no other line, whatever the patterns of the class are, and it carries
    the whole line: a line that does not begin with [Unknown] or [Error],
    or that begins with [Error while decoding stream], never yields an
    error event. *)
Theorem error_event_iff (klass : FFmpegClass) (video : Video) (line e : string) :
  process_status_line klass video line = Returned (Some (EvError e)) <->
  e = line /\
  (PyStr.startswith "Unknown" line = true \/
   (PyStr.startswith "Error" line = true /\
    PyStr.startswith "Error while decoding stream" line = false)).
Proof.
  unfold process_status_line, _check_for_errors.
  destruct (PyStr.startswith "Unknown" line) eqn:HU.
  - cbn [truthy default]. rewrite (startswith_truthy _ _ _ HU).
    split; [intros [= <-]; auto | intros [-> _]; done].
  - destruct (PyStr.startswith "Error" line) eqn:HE;
      [destruct (PyStr.startswith "Error while decoding stream" line) eqn:HD|];
      cbn [negb truthy default].
    2:{ rewrite (startswith_truthy _ _ _ HE).
        split; [intros [= <-]; auto | intros [-> _]; done]. }
    all: split; [|intros [_ [? | [? ?]]]; done].
    all: destruct (Re.re_match (DURATION_RE klass) line) as [m|];
      [destruct (duration_event_shape m) as [[d ->] | [e0 ->]]; done|].
    all: destruct (Re.re_match (PROGRESS_RE klass) line) as [m|];
      [destruct (progress_event_shape m) as [[p ->] | (e0 & -> & _)]; done|].
    all: by destruct (Re.re_match (LAST_PROGRESS_RE klass) line).
Qed.

(** ** Duration events *)

Lemma star_greedy_split {A} p s (k : string -> option A) r :
  Re.star_greedy p s k = Some r ->
  exists u s', s = u ++ s' /\ PyStr.forallb p u = true /\ k s' = Some r.
Proof.
  induction s as [|c s IH]; simpl.
  - intros H. by exists EmptyString, EmptyString.
  - destruct (p c) eqn:Hc.
    + destruct (Re.star_greedy p s k) as [r'|] eqn:E.
      * intros [= ->]. destruct (IH eq_refl) as (u & s' & -> & Hu & Hk).
        exists (String c u), s'. split; [done|]. split; [|done].
        simpl. by rewrite Hc, Hu.
      * intros H. by exists EmptyString, (String c s).
    + intros H. by exists EmptyString, (String c s).
Qed.

Lemma rmatch_Lit_split {A} l s caps (k : string -> Re.captures -> option A) x :
  Re.rmatch (Re.Lit l) s caps k = Some x -> exists s', s = l ++ s' /\ k s' caps = Some x.
Proof.
  simpl. destruct (PyStr.strip_prefix l s) as [s'|] eqn:E; [|done].
  intros H. exists s'. split; [by apply strip_prefix_inv | done].
Qed.

Lemma rmatch_Group_digit2_split {A} n s caps (k : string -> Re.captures -> option A) x :
  Re.rmatch (Re.Group n digit2) s caps k = Some x ->
  exists a b s',
    s = two_digits a b ++ s' /\
    PyStr.is_digit a = true /\ PyStr.is_digit b = true /\
    k s' (<[n := Some (two_digits a b)]> caps) = Some x.
Proof.
  simpl. destruct s as [|a [|b s']]; try done.
  - by destruct (PyStr.is_digit a).
  - destruct (PyStr.is_digit a) eqn:Ha; [|done].
    destruct (PyStr.is_digit b) eqn:Hb; [|done].
    intros H. exists a, b, s'. split; [done|]. split; [done|]. split; [done|].
    by rewrite <- (consumed_two a b s').
Qed.

Lemma rmatch_Opt_tail_split {A} n l s caps (k : string -> Re.captures -> option A) x :
  Re.rmatch (Re.Opt (Re.Group n (Re.Cat (Re.Lit l) any))) s caps k = Some x ->
  exists s' caps',
    k s' caps' = Some x /\ (caps' = caps \/ exists y, caps' = <[n := y]> caps).
Proof.
  simpl. destruct (PyStr.strip_prefix l s) as [s1|]; [|by eauto].
  destruct (Re.star_greedy _ _ _) as [y|] eqn:E; [|by eauto].
  intros [= ->]. apply star_greedy_inv in E as [s' E]. eauto 6.
Qed.

Lemma digits_intro (h1 h2 m1 m2 s1 s2 c1 c2 : ascii) :
  PyStr.is_digit h1 = true -> PyStr.is_digit h2 = true ->
  PyStr.is_digit m1 = true -> PyStr.is_digit m2 = true ->
  PyStr.is_digit s1 = true -> PyStr.is_digit s2 = true ->
  PyStr.is_digit c1 = true -> PyStr.is_digit c2 = true ->
  PyStr.forallb PyStr.is_digit
    (two_digits h1 h2 ++ two_digits m1 m2 ++ two_digits s1 s2 ++ two_digits c1 c2) = true.
Proof.
  intros H1 H2 H3 H4 H5 H6 H7 H8.
  change (PyStr.is_digit h1 && (PyStr.is_digit h2 && (PyStr.is_digit m1 &&
          (PyStr.is_digit m2 && (PyStr.is_digit s1 && (PyStr.is_digit s2 &&
          (PyStr.is_digit c1 && (PyStr.is_digit c2 && true))))))) = true).
  by rewrite H1, H2, H3, H4, H5, H6, H7, H8.
Qed.

(** What the duration pattern matches is a duration line. *)
Lemma duration_match_inv (line : string) (m : Re.captures) :
  Re.re_match (DURATION_RE FFmpegConverterInfoBase) line = Some m ->
  exists w h1 h2 m1 m2 s1 s2 c1 c2 rest,
    line = w ++ duration_text h1 h2 m1 m2 s1 s2 c1 c2 rest /\
    PyStr.forallb PyStr.is_nonword w = true /\
    PyStr.forallb PyStr.is_digit
      (two_digits h1 h2 ++ two_digits m1 m2 ++ two_digits s1 s2 ++ two_digits c1 c2)
      = true /\
    duration_groups (two_digits h1 h2) (two_digits m1 m2)
                    (two_digits s1 s2) (two_digits c1 c2) m.
Proof.
  unfold Re.re_match.
  cbn [DURATION_RE FFmpegConverterInfoBase Re.pat_re Re.pat_groups].
  change (Re.cat (Re.Star PyStr.is_nonword :: ?l))
    with (Re.Cat (Re.Star PyStr.is_nonword) (Re.cat l)).
  rewrite rmatch_Group, rmatch_Cat, rmatch_Star.
  intros (w & s0 & -> & Hw & H)%star_greedy_split.
  cbn [Re.cat] in H.
  rewrite rmatch_Cat in H. apply rmatch_Lit_split in H as (x1 & -> & H).
  rewrite rmatch_Cat in H.
  apply rmatch_Group_digit2_split in H as (h1 & h2 & x2 & -> & Hh1 & Hh2 & H).
  rewrite rmatch_Cat in H. apply rmatch_Lit_split in H as (x3 & -> & H).
  rewrite rmatch_Cat in H.
  apply rmatch_Group_digit2_split in H as (m1 & m2 & x4 & -> & Hm1 & Hm2 & H).
  rewrite rmatch_Cat in H. apply rmatch_Lit_split in H as (x5 & -> & H).
  rewrite rmatch_Cat in H.
  apply rmatch_Group_digit2_split in H as (s1 & s2 & x6 & -> & Hs1 & Hs2 & H).
  rewrite rmatch_Cat in H. apply rmatch_Lit_split in H as (x7 & -> & H).
  rewrite rmatch_Cat in H.
  apply rmatch_Group_digit2_split in H as (c1 & c2 & rest & -> & Hc1 & Hc2 & H).
  rewrite rmatch_Cat in H.
  apply rmatch_Opt_tail_split in H as (x8 & caps5 & H & Hcaps5).
  apply rmatch_Opt_tail_split in H as (x9 & caps6 & [= <-] & Hcaps6).
  exists w, h1, h2, m1, m2, s1, s2, c1, c2, rest.
  split; [reflexivity|]. split; [done|]. split; [by apply digits_intro|].
  apply duration_groups_insert; [compute_done|].
  assert (H4 : duration_groups (two_digits h1 h2) (two_digits m1 m2)
                 (two_digits s1 s2) (two_digits c1 c2) caps5).
  { destruct Hcaps5 as [-> | [y ->]];
      [|apply duration_groups_insert; [compute_done|]]; by repeat split. }
  destruct Hcaps6 as [-> | [y ->]];
    [|apply duration_groups_insert; [compute_done|]]; done.
Qed.

Lemma digit_value_range (a : ascii) :
  PyStr.is_digit a = true -> 0 <= PyNum.digit_value a <= 9.
Proof.
  intros H%is_digit_inv. simpl in H.
  repeat (destruct H as [<- | H]; [by vm_compute|]). done.
Qed.

Lemma value2_range (a b : ascii) :
  PyStr.is_digit a = true -> PyStr.is_digit b = true -> 0 <= value2 a b <= 99.
Proof.
  intros Ha%digit_value_range Hb%digit_value_range. unfold value2. lia.
Qed.

(** X15: a duration event is given for duration lines only.  When
    [process_status_line] returns a duration event, the line is some
    non-word characters, [Duration: HH:MM:SS.CC] with two-digit fields and
    a rest, and the event carries the [float] that the code computes from
    the four fields: the integer [HH*3600 + MM*60] plus the [float]
    [SS + 0.01*CC], every operation rounded to the nearest [float]. *)
Theorem duration_event_inv (video : Video) (line : string) (d : pynum) :
  process_status_line FFmpegConverterInfoBase video line
  = Returned (Some (EvDuration d)) ->
  exists w h1 h2 m1 m2 s1 s2 c1 c2 rest,
    line = w ++ duration_text h1 h2 m1 m2 s1 s2 c1 c2 rest /\
    PyStr.forallb PyStr.is_nonword w = true /\
    PyStr.forallb PyStr.is_digit
      (two_digits h1 h2 ++ two_digits m1 m2 ++ two_digits s1 s2 ++ two_digits c1 c2)
      = true /\
    d = PyFloat (Z2F (value2 h1 h2 * 3600 + value2 m1 m2 * 60) +
                 (Z2F (value2 s1 s2) + 0.01 * Z2F (value2 c1 c2))).
Proof.
  unfold process_status_line.
  destruct (truthy (_check_for_errors line)); [done|].
  destruct (Re.re_match (DURATION_RE FFmpegConverterInfoBase) line) as [m|] eqn:Hm.
  - apply duration_match_inv in Hm
      as (w & h1 & h2 & m1 & m2 & s1 & s2 & c1 & c2 & rest & -> & Hw & Hd & Hg).
    rewrite (duration_event_value h1 h2 m1 m2 s1 s2 c1 c2 m Hd Hg).
    intros [= <-]. by exists w, h1, h2, m1, m2, s1, s2, c1, c2, rest.
  - destruct (Re.re_match (PROGRESS_RE FFmpegConverterInfoBase) line) as [m|].
    + by destruct (progress_event_shape m) as [[p ->] | (e0 & -> & _)].
    + by destruct (Re.re_match (LAST_PROGRESS_RE FFmpegConverterInfoBase) line).
Qed.

Lemma duration_event_inv_witness :
  exists w h1 h2 m1 m2 s1 s2 c1 c2 rest,
    "  Duration: 00:00:03.57, start: 0.000000, bitrate: 128 kb/s"
    = w ++ duration_text h1 h2 m1 m2 s1 s2 c1 c2 rest /\
    PyStr.forallb PyStr.is_nonword w = true /\
    PyStr.forallb PyStr.is_digit
      (two_digits h1 h2 ++ two_digits m1 m2 ++ two_digits s1 s2 ++ two_digits c1 c2)
      = true /\
    PyFloat 3.5700000000000003 =
    PyFloat (Z2F (value2 h1 h2 * 3600 + value2 m1 m2 * 60) +
             (Z2F (value2 s1 s2) + 0.01 * Z2F (value2 c1 c2))).
Proof.
  apply (duration_event_inv sample_video
           "  Duration: 00:00:03.57, start: 0.000000, bitrate: 128 kb/s"
           (PyFloat 3.5700000000000003)).
  vm_compute. reflexivity.
Defined.

(** X16: the classifier of the base class can raise, but a [ValueError]
    only, and only in the progress branch: when [process_status_line]
    raises, the line passed the error check, is no duration line, and is
    matched by the progress pattern with a [time=] field that [float] or
    the unpacking of [H:M:S] refuses.  A duration line never raises. *)
Theorem process_status_line_raises (video : Video) (line : string) (e : exn) :
  process_status_line FFmpegConverterInfoBase video line = Raised e ->
  (exists msg, e = ValueError msg) /\
  _check_for_errors line = None /\
  Re.re_match (DURATION_RE FFmpegConverterInfoBase) line = None /\
  exists m,
    Re.re_match (PROGRESS_RE FFmpegConverterInfoBase) line = Some m /\
    progress_event m = Raised e.
Proof.
  unfold process_status_line.
  destruct (_check_for_errors line) as [err|] eqn:Hc; cbn [truthy default].
  { destruct (PyStr.truthy err) eqn:Ht; [done|].
    unfold _check_for_errors in Hc.
    destruct (PyStr.startswith "Unknown" line) eqn:HU.
    - injection Hc as <-. by rewrite (startswith_truthy _ _ _ HU) in Ht.
    - destruct (PyStr.startswith "Error" line) eqn:HE; [|done].
      destruct (negb _); [|done].
      injection Hc as <-. by rewrite (startswith_truthy _ _ _ HE) in Ht. }
  destruct (Re.re_match (DURATION_RE FFmpegConverterInfoBase) line) as [m|] eqn:Hm.
  - apply duration_match_inv in Hm
      as (w & h1 & h2 & m1 & m2 & s1 & s2 & c1 & c2 & rest & -> & Hw & Hd & Hg).
    by rewrite (duration_event_value h1 h2 m1 m2 s1 s2 c1 c2 m Hd Hg).
  - destruct (Re.re_match (PROGRESS_RE FFmpegConverterInfoBase) line) as [m|] eqn:Hp.
    + intros He.
      destruct (re_match_group _ _ _ 1%nat Hp) as [t Ht]; [compute_done | cbn; lia |].
      destruct (progress_event_shape m) as [[p Hev] | (e0 & Hev & Hval)];
        rewrite Hev in He; [done|].
      injection He as <-. split; [apply Hval; by rewrite Ht|].
      split; [done|]. split; [done|]. by exists m.
    + by destruct (Re.re_match (LAST_PROGRESS_RE FFmpegConverterInfoBase) line).
Qed.

Lemma process_status_line_raises_witness :
  exists msg, ValueError "could not convert string to float" = ValueError msg.
Proof.
  apply (process_status_line_raises sample_video
           "frame=  10 fps=0.0 q=0.0 size=       0kB time=N/A bitrate=N/A"
           (ValueError "could not convert string to float")).
  by vm_compute.
Defined.
(** ** Progress lines *)

Lemma app_cons (c : ascii) (s1 s2 : string) : String c s1 ++ s2 = String c (s1 ++ s2).
Proof. done. Qed.

Lemma app_nil (s : string) : EmptyString ++ s = s.
Proof. done. Qed.

Lemma consumed_app (u s : string) : Re.consumed (u ++ s) s = u.
Proof.
  unfold Re.consumed. rewrite string_app_length.
  replace (String.length u + String.length s - String.length s)%nat
    with (String.length u) by lia.
  apply substring_prefix.
Qed.

(** The greedy star fails when the continuation refuses every suffix. *)
Lemma star_greedy_none {A} p s (k : string -> option A) :
  (forall u s', s = u ++ s' -> k s' = None) -> Re.star_greedy p s k = None.
Proof.
  induction s as [|c s IH]; intros Hk; simpl.
  - by apply (Hk EmptyString).
  - assert (Hs : k (String c s) = None) by by apply (Hk EmptyString).
    destruct (p c); [|done]. rewrite IH; [done|].
    intros u s' ->. by apply (Hk (String c u)).
Qed.

(** The greedy star stops where the continuation accepts, when the
    continuation refuses every later position. *)
Lemma star_greedy_last {A} p a x (k : string -> option A) r :
  PyStr.forallb p a = true -> k x = Some r ->
  (forall u z, x = u ++ z -> u <> EmptyString -> k z = None) ->
  Re.star_greedy p (a ++ x) k = Some r.
Proof.
  intros Ha Hk Hlater. induction a as [|c a IH].
  - rewrite app_nil. destruct x as [|c x]; simpl; [done|].
    destruct (p c); [|done]. rewrite star_greedy_none; [done|].
    intros u s' ->. by apply (Hlater (String c u)).
  - simpl in Ha. apply andb_prop in Ha as [Hc Ha].
    rewrite app_cons. simpl. by rewrite Hc, (IH Ha).
Qed.

Lemma occurs_suffix (l s : string) :
  occurs l s = false -> forall u z, s = u ++ z -> PyStr.startswith l z = false.
Proof.
  intros H u. revert s H. induction u as [|c u IH]; intros s H z ->.
  - rewrite app_nil in H. destruct z; simpl in H; by apply orb_false_elim in H as [? _].
  - rewrite app_cons in H. simpl in H. apply orb_false_elim in H as [_ H].
    by eapply IH.
Qed.

Lemma occurs_cons_nomatch (l : string) (c : ascii) (s : string) :
  PyStr.startswith l (String c s) = false -> occurs l (String c s) = occurs l s.
Proof. intros H. simpl. by rewrite H. Qed.

Lemma occurs_cons_ne (c0 : ascii) (l : string) (c : ascii) (s : string) :
  Ascii.eqb c0 c = false -> occurs (String c0 l) (String c s) = occurs (String c0 l) s.
Proof.
  intros H. apply occurs_cons_nomatch. unfold PyStr.startswith.
  cbn [PyStr.strip_prefix]. by rewrite H.
Qed.

(** A literal that is no prefix of the subject makes a match fail. *)
Lemma rmatch_Lit_none {A} l r s caps (k : string -> Re.captures -> option A) :
  PyStr.startswith l s = false -> Re.rmatch (Re.Cat (Re.Lit l) r) s caps k = None.
Proof.
  unfold PyStr.startswith. simpl. by destruct (PyStr.strip_prefix l s).
Qed.

Lemma rmatch_Opt_skip {A} r s caps (k : string -> Re.captures -> option A) :
  Re.rmatch r s caps k = None -> Re.rmatch (Re.Opt r) s caps k = k s caps.
Proof. simpl. by intros ->. Qed.

(** The end of the progress pattern, from [ bitrate=] on. *)
Lemma progress_bitrate (line0 b : string) (caps : Re.captures) :
  exists x y,
    Re.rmatch (Re.Cat (Re.Lit " bitrate=") (Re.Group 2 any)) (" bitrate=" ++ b) caps
      (fun s' caps' => Some (<[0%nat := Some (Re.consumed line0 s')]> caps'))
    = Some (<[0%nat := x]> (<[2%nat := y]> caps)).
Proof.
  rewrite rmatch_Cat, rmatch_Lit, rmatch_Group. unfold any. rewrite rmatch_Star.
  destruct (star_greedy_total PyStr.is_dot b
              (fun s' => Some (<[0%nat := Some (Re.consumed line0 s')]>
                                 (<[2%nat := Some (Re.consumed b s')]> caps)))
              (fun r => exists x y, r = <[0%nat := x]> (<[2%nat := y]> caps)))
    as (r & Hr & x & y & ->); [by eauto|].
  by exists x, y.
Qed.

(** The progress pattern from its [time=] group on: the group takes the
    text up to [ bitrate=], when no [ bitrate=] comes later. *)
Lemma progress_time (line0 t b : string) (caps : Re.captures) :
  PyStr.forallb PyStr.is_dot t = true ->
  occurs " bitrate=" b = false ->
  exists x y,
    Re.rmatch (Re.cat [Re.Group 1 any; Re.Lit " bitrate="; Re.Group 2 any])
      (t ++ " bitrate=" ++ b) caps
      (fun s' caps' => Some (<[0%nat := Some (Re.consumed line0 s')]> caps'))
    = Some (<[0%nat := x]> (<[2%nat := y]> (<[1%nat := Some t]> caps))).
Proof.
  intros Ht Hb. cbn [Re.cat].
  rewrite rmatch_Cat, rmatch_Group. unfold any at 1. rewrite rmatch_Star.
  destruct (progress_bitrate line0 b (<[1%nat := Some t]> caps)) as (x & y & Hxy).
  exists x, y. apply star_greedy_last; [done | by rewrite consumed_app |].
  intros u z Hz Hu. apply rmatch_Lit_none.
  destruct u as [|c u]; [done|].
  rewrite app_cons in Hz. injection Hz as <- Hz.
  apply (occurs_suffix " bitrate=" ("bitrate=" ++ b)) with (u := u); [|done].
  rewrite !app_cons, app_nil.
  by rewrite !occurs_cons_nomatch by reflexivity.
Qed.

(** The progress pattern on a line that begins with [size=]: group 1 is
    the text between [ time=] and [ bitrate=], when neither marker comes
    again later. *)
Lemma progress_match (a t b : string) :
  PyStr.forallb PyStr.is_dot a = true ->
  PyStr.forallb PyStr.is_dot t = true ->
  occurs " time=" (t ++ " bitrate=" ++ b) = false ->
  occurs " bitrate=" b = false ->
  exists m,
    Re.re_match (PROGRESS_RE FFmpegConverterInfoBase)
      ("size=" ++ a ++ " time=" ++ t ++ " bitrate=" ++ b) = Some m /\
    Re.group m 1 = Some t.
Proof.
  intros Ha Ht Htime Hbit. unfold Re.re_match.
  cbn [PROGRESS_RE FFmpegConverterInfoBase Re.pat_re Re.pat_groups replicate].
  set (line0 := "size=" ++ a ++ " time=" ++ t ++ " bitrate=" ++ b).
  destruct (progress_time line0 t b [None; None; None] Ht Hbit) as (x & y & Hxy).
  exists (<[0%nat := x]> (<[2%nat := y]> (<[1%nat := Some t]> [None; None; None]))).
  split; [|done].
  change (Re.cat (?r :: Re.Lit "size=" :: any :: Re.Lit " time=" :: ?l))
    with (Re.Cat r (Re.Cat (Re.Lit "size=")
            (Re.Cat any (Re.Cat (Re.Lit " time=") (Re.cat l))))).
  rewrite rmatch_Group, rmatch_Cat, rmatch_Opt_skip by reflexivity.
  unfold line0 at 1. rewrite rmatch_Cat, rmatch_Lit, rmatch_Cat.
  unfold any at 1. rewrite rmatch_Star.
  apply star_greedy_last; [done | by rewrite rmatch_Cat, rmatch_Lit |].
  intros u z Hz Hu. apply rmatch_Lit_none.
  destruct u as [|c u]; [done|].
  rewrite app_cons in Hz. injection Hz as <- Hz.
  apply (occurs_suffix " time=" ("time=" ++ t ++ " bitrate=" ++ b)) with (u := u); [|done].
  rewrite !app_cons, app_nil.
  by rewrite !occurs_cons_nomatch by reflexivity.
Qed.

Lemma digit_facts (d : ascii) :
  PyStr.is_digit d = true ->
  Ascii.eqb " " d = false /\ Ascii.eqb d ":" = false /\ PyStr.is_dot d = true.
Proof.
  intros H%is_digit_inv. simpl in H.
  repeat (destruct H as [<- | H]; [by vm_compute|]). done.
Qed.

Section Stamp.

Variables (h1 h2 m1 m2 s1 s2 c1 c2 : ascii).
Hypothesis digits :
  PyStr.forallb PyStr.is_digit
    (two_digits h1 h2 ++ two_digits m1 m2 ++ two_digits s1 s2 ++ two_digits c1 c2) = true.

Lemma stamp_is_dot :
  PyStr.forallb PyStr.is_dot (time_stamp h1 h2 m1 m2 s1 s2 c1 c2) = true.
Proof.
  destruct (digits_inv _ _ _ _ _ _ _ _ digits)
    as ((Hh1 & Hh2) & (Hm1 & Hm2) & (Hs1 & Hs2) & (Hc1 & Hc2)).
  unfold time_stamp, two_digits. rewrite !app_cons, !app_nil.
  cbn [PyStr.forallb].
  rewrite (proj2 (proj2 (digit_facts _ Hh1))), (proj2 (proj2 (digit_facts _ Hh2))),
    (proj2 (proj2 (digit_facts _ Hm1))), (proj2 (proj2 (digit_facts _ Hm2))),
    (proj2 (proj2 (digit_facts _ Hs1))), (proj2 (proj2 (digit_facts _ Hs2))),
    (proj2 (proj2 (digit_facts _ Hc1))), (proj2 (proj2 (digit_facts _ Hc2))).
  reflexivity.
Qed.

Lemma stamp_no_time (b : string) :
  occurs " time=" b = false ->
  occurs " time=" (time_stamp h1 h2 m1 m2 s1 s2 c1 c2 ++ " bitrate=" ++ b) = false.
Proof.
  destruct (digits_inv _ _ _ _ _ _ _ _ digits)
    as ((Hh1 & Hh2) & (Hm1 & Hm2) & (Hs1 & Hs2) & (Hc1 & Hc2)).
  intros Hb. unfold time_stamp, two_digits.
  repeat first [rewrite app_cons | rewrite app_nil].
  repeat first
    [ rewrite occurs_cons_nomatch by reflexivity
    | rewrite occurs_cons_ne by (eapply digit_facts; eassumption) ].
  exact Hb.
Qed.

Lemma stamp_split :
  PyStr.contains ":" (time_stamp h1 h2 m1 m2 s1 s2 c1 c2) = true /\
  PyStr.split ":" (time_stamp h1 h2 m1 m2 s1 s2 c1 c2)
  = [two_digits h1 h2; two_digits m1 m2; two_digits s1 s2 ++ "." ++ two_digits c1 c2].
Proof.
  destruct (digits_inv _ _ _ _ _ _ _ _ digits)
    as ((Hh1 & Hh2) & (Hm1 & Hm2) & (Hs1 & Hs2) & (Hc1 & Hc2)).
  unfold time_stamp, two_digits. rewrite !app_cons, !app_nil. split.
  - cbn [PyStr.contains]. change (Ascii.eqb ":" ":") with true.
    by rewrite !orb_true_r.
  - cbn [PyStr.split].
    rewrite (proj1 (proj2 (digit_facts _ Hh1))), (proj1 (proj2 (digit_facts _ Hh2))),
      (proj1 (proj2 (digit_facts _ Hm1))), (proj1 (proj2 (digit_facts _ Hm2))),
      (proj1 (proj2 (digit_facts _ Hs1))), (proj1 (proj2 (digit_facts _ Hs2))),
      (proj1 (proj2 (digit_facts _ Hc1))), (proj1 (proj2 (digit_facts _ Hc2))).
    reflexivity.
Qed.

End Stamp.

(** [float] on the fields of a time stamp, checked on every digit: a
    field [HH] gives the [float] of its integer, a field [SS.CC] the
    [float] nearest to it, which is the quotient of the integer
    [100*SS + CC] by [100.0]. *)
Lemma float_fields_check :
  List.map (fun a => List.map (fun b =>
    (PyNum.py_float (two_digits a b),
     List.map (fun c => List.map (fun d =>
       PyNum.py_float (two_digits a b ++ "." ++ two_digits c d)) digit_chars) digit_chars))
    digit_chars) digit_chars
  = List.map (fun a => List.map (fun b =>
    (Returned (Z2F (value2 a b)),
     List.map (fun c => List.map (fun d =>
       Returned (Z2F (100 * value2 a b + value2 c d) / 100)%float) digit_chars) digit_chars))
    digit_chars) digit_chars.
Proof. vm_compute. reflexivity. Qed.

Lemma float_fields (a b c d : ascii) :
  PyStr.is_digit a = true -> PyStr.is_digit b = true ->
  PyStr.is_digit c = true -> PyStr.is_digit d = true ->
  PyNum.py_float (two_digits a b) = Returned (Z2F (value2 a b)) /\
  PyNum.py_float (two_digits a b ++ "." ++ two_digits c d)
  = Returned (Z2F (100 * value2 a b + value2 c d) / 100)%float.
Proof.
  intros Ha%is_digit_inv Hb%is_digit_inv Hc%is_digit_inv Hd%is_digit_inv.
  pose proof (map_eq_In _ _ _ (map_eq_In _ _ _ float_fields_check a Ha) b Hb) as H.
  cbv beta in H. split; [exact (f_equal fst H)|].
  exact (map_eq_In _ _ _ (map_eq_In _ _ _ (f_equal snd H) c Hc) d Hd).
Qed.

(** What [float] reads: a magnitude beyond the range is an infinity, one
    below it a zero, and a decimal fraction the nearest [float]. *)
Example py_float_examples :
  PyNum.py_float "1e400" = Returned infinity /\
  PyNum.py_float "-1e400" = Returned neg_infinity /\
  PyNum.py_float "1e-400" = Returned 0%float /\
  PyNum.py_float "5e-324" = Returned 4.9406564584124654e-324%float /\
  PyNum.py_float " 0.01 " = Returned 0.01%float /\
  PyNum.py_float "3.57" = Returned 3.5699999999999998%float /\
  PyNum.py_float "1e23" = Returned 9.9999999999999992e+22%float /\
  PyNum.py_float "2e-324" = Returned 0%float /\
  PyNum.py_float "3e-324" = Returned 4.9406564584124654e-324%float /\
  PyNum.py_float "1.7976931348623157e308" = Returned 1.7976931348623157e+308%float /\
  PyNum.py_float "1.7976931348623159e308" = Returned infinity /\
  PyNum.py_float "-0.0" = Returned (-0)%float /\
  PyNum.py_float "Infinity" = Returned infinity /\
  PyNum.py_float "1e" = Raised (ValueError "could not convert string to float").
Proof. repeat split; vm_compute; reflexivity. Qed.

(** A [long] beyond the range of [float] cannot be an operand of mixed
    arithmetic, while two [float]s overflow to an infinity. *)
Example overflow_examples :
  py_add (PyInt (10 ^ 400)) (PyFloat 0.5)
  = Raised (OverflowError "long int too large to convert to float") /\
  py_mul (PyFloat 1e308) (PyFloat 10) = Returned (PyFloat infinity) /\
  py_div (PyInt (-7)) (PyInt 2) = Returned (PyInt (-4)) /\
  py_add (PyInt (2 ^ 53 + 1)) (PyFloat 0) = Returned (PyFloat 9007199254740992).
Proof. repeat split; vm_compute; reflexivity. Qed.

(** X17: progress lines.  On a line [size=<a> time=<t> bitrate=<b>] with
    no line feed in [a] and [t] and neither marker coming again after
    [<t>], the [time=] field is read as follows.  A field without colon
    that [float] accepts gives a progress event of that [float].  A time
    stamp [HH:MM:SS.CC] gives the [float]
    [float(HH)*3600 + float(MM)*60 + float(SS.CC)], the operations from
    left to right and each rounded to the nearest [float], where
    [float(SS.CC)] is the [float] nearest to the field, the quotient of
    [100*SS + CC] by [100.0]. *)
Theorem process_status_line_progress (video : Video) (a b : string) :
  PyStr.forallb PyStr.is_dot a = true ->
  occurs " time=" b = false ->
  occurs " bitrate=" b = false ->
  (forall t p,
      PyStr.forallb PyStr.is_dot t = true ->
      occurs " time=" (t ++ " bitrate=" ++ b) = false ->
      PyStr.contains ":" t = false ->
      PyNum.py_float t = Returned p ->
      process_status_line FFmpegConverterInfoBase video
        ("size=" ++ a ++ " time=" ++ t ++ " bitrate=" ++ b)
      = Returned (Some (EvProgress (PyFloat p)))) /\
  (forall h1 h2 m1 m2 s1 s2 c1 c2,
      PyStr.forallb PyStr.is_digit
        (two_digits h1 h2 ++ two_digits m1 m2 ++ two_digits s1 s2 ++ two_digits c1 c2)
        = true ->
      process_status_line FFmpegConverterInfoBase video
        ("size=" ++ a ++ " time=" ++ time_stamp h1 h2 m1 m2 s1 s2 c1 c2 ++
         " bitrate=" ++ b)
      = Returned (Some (EvProgress (PyFloat
          (Z2F (value2 h1 h2) * 3600 + Z2F (value2 m1 m2) * 60 +
           Z2F (100 * value2 s1 s2 + value2 c1 c2) / 100))))).
Proof.
  intros Ha Hbt Hbb.
  assert (Hrun : forall t,
    PyStr.forallb PyStr.is_dot t = true ->
    occurs " time=" (t ++ " bitrate=" ++ b) = false ->
    exists m,
      process_status_line FFmpegConverterInfoBase video
        ("size=" ++ a ++ " time=" ++ t ++ " bitrate=" ++ b) = progress_event m /\
      Re.group m 1 = Some t).
  { intros t Ht Htime.
    destruct (progress_match a t b Ha Ht Htime Hbb) as (m & Hm & Hg).
    exists m. split; [|done]. unfold process_status_line.
    change (_check_for_errors ("size=" ++ ?x)) with (@None string).
    cbn [truthy].
    change (Re.re_match (DURATION_RE FFmpegConverterInfoBase) ("size=" ++ ?x))
      with (@None Re.captures).
    by rewrite Hm. }
  split.
  - intros t p Ht Htime Hcolon Hp.
    destruct (Hrun t Ht Htime) as (m & -> & Hg).
    unfold progress_event. by rewrite Hg, Hcolon, Hp.
  - intros h1 h2 m1 m2 s1 s2 c1 c2 Hd.
    destruct (Hrun (time_stamp h1 h2 m1 m2 s1 s2 c1 c2))
      as (m & -> & Hg); [by apply stamp_is_dot | by apply stamp_no_time |].
    destruct (stamp_split h1 h2 m1 m2 s1 s2 c1 c2 Hd) as [Hcolon Hsplit].
    destruct (digits_inv h1 h2 m1 m2 s1 s2 c1 c2 Hd)
      as ((Hh1 & Hh2) & (Hm1 & Hm2) & (Hs1 & Hs2) & (Hc1 & Hc2)).
    unfold progress_event. rewrite Hg, Hcolon, Hsplit.
    cbn [take for_each bind].
    rewrite (proj1 (float_fields h1 h2 c1 c2 Hh1 Hh2 Hc1 Hc2)). cbn [bind].
    rewrite (proj1 (float_fields m1 m2 c1 c2 Hm1 Hm2 Hc1 Hc2)). cbn [bind].
    rewrite (proj2 (float_fields s1 s2 c1 c2 Hs1 Hs2 Hc1 Hc2)). cbn [bind].
    by rewrite hms_to_seconds_float.
Qed.

Lemma process_status_line_progress_witness :
  process_status_line FFmpegConverterInfoBase sample_video
    ("size=" ++ "    1024kB" ++ " time=" ++ time_stamp "0" "0" "0" "1" "0" "8" "0" "4" ++
     " bitrate=" ++ " 128.0kbits/s")
  = Returned (Some (EvProgress (PyFloat
      (Z2F 0 * 3600 + Z2F 1 * 60 + Z2F (100 * 8 + 4) / 100)))).
Proof.
  exact (proj2 (process_status_line_progress sample_video "    1024kB" " 128.0kbits/s"
                  eq_refl eq_refl eq_refl)
           "0"%char "0"%char "0"%char "1"%char "0"%char "8"%char "0"%char "4"%char
           eq_refl).
Defined.

(** The time stamp of a progress line is rounded as well: [60 + 8.04]
    is the [float] just below [68.04]. *)
Example progress_rounding :
  process_status_line FFmpegConverterInfoBase sample_video
    "size=1024kB time=00:01:08.04 bitrate=128.0kbits/s"
  = Returned (Some (EvProgress (PyFloat 68.039999999999992))).
Proof. vm_compute. reflexivity. Qed.

(** *** Profiles do not share output file names *)

Lemma dot_free_prefix (s1 s2 x y : string) :
  PyStr.contains "." s1 = false -> PyStr.contains "." s2 = false ->
  s1 ++ String "." x = s2 ++ String "." y -> s1 = s2 /\ x = y.
Proof.
  revert s2. induction s1 as [|c s1 IH]; intros [|d s2] H1 H2;
    rewrite ?app_cons, ?app_nil.
  - by intros [= ->].
  - intros [= <- _]. discriminate H2.
  - intros [= -> _]. discriminate H1.
  - intros [= <- H]. simpl in H1, H2.
    apply orb_false_elim in H1 as [_ H1]. apply orb_false_elim in H2 as [_ H2].
    destruct (IH s2 H1 H2 H) as [-> ->]. done.
Qed.

Lemma lower_or_digit_no_dot (s : string) :
  PyStr.forallb (fun c => PyStr.is_lower c || PyStr.is_digit c) s = true ->
  PyStr.contains "." s = false.
Proof.
  induction s as [|c s IH]; simpl; [done|].
  intros [Hc Hs]%andb_prop. rewrite (IH Hs), orb_false_r.
  destruct (Ascii.eqb "." c) eqn:E; [|done].
  apply Ascii.eqb_eq in E as <-. discriminate Hc.
Qed.

(** X18: for one source, two profiles built by [__init__] get the same
    output file name only if they have the same identifier: profiles with
    different identifiers never write to the same file name, whatever
    their extensions are. *)
Theorem get_output_filename_separates a1 mt1 br1 ext1 nm1 a2 mt2 br2 ext2 nm2 video :
  get_output_filename (ConverterInfo_init a1 mt1 br1 ext1 nm1) video
  = get_output_filename (ConverterInfo_init a2 mt2 br2 ext2 nm2) video ->
  identifier (ConverterInfo_init a1 mt1 br1 ext1 nm1)
  = identifier (ConverterInfo_init a2 mt2 br2 ext2 nm2).
Proof.
  unfold get_output_filename. cbn [identifier extension ConverterInfo_init].
  destruct (PosixPath.splitext _) as [stem e].
  intros H. apply (inj (String.append stem)) in H.
  rewrite !app_cons, !app_nil in H. injection H as H.
  apply dot_free_prefix in H as [H _]; [done | |];
    apply lower_or_digit_no_dot, identifier_chars.
Qed.

Lemma get_output_filename_separates_witness :
  identifier (ConverterInfo_init 1 (Some "format") None (Some "ogv") "Ogg Theora")
  = identifier (ConverterInfo_init 2 (Some "video") None (Some "ogv") "OGG-Theora!").
Proof.
  apply (get_output_filename_separates
           1 (Some "format") None (Some "ogv") "Ogg Theora"
           2 (Some "video") None (Some "ogv") "OGG-Theora!" sample_video).
  reflexivity.
Defined.
